(** * apihat-node: the request/response logging middleware of [src/apihat.js]

    A shallow embedding of [useApiHat], [sendPayloadToApiHat],
    [getRequestDuration] and [maskSensitiveValues], over a small model of the
    JavaScript values and Node built-ins the file uses. *)

From Stdlib Require Import ZArith NArith QArith Qround Qabs Qpower List String Ascii
  Bool Lia Lqa.
Import ListNotations.

Open Scope Z_scope.

#[local] Set Warnings "-register-all".

(** ** JavaScript values *)

Module JS.

(** A JavaScript string is a sequence of UTF-16 code units. *)
Definition jsstring := list N.

(** String literals of the source, written in ASCII. *)
Fixpoint lit (s : string) : jsstring :=
  match s with
  | EmptyString => []
  | String a s' => N_of_ascii a :: lit s'
  end.

Fixpoint str_eqb (a b : jsstring) : bool :=
  match a, b with
  | [], [] => true
  | x :: a', y :: b' => N.eqb x y && str_eqb a' b'
  | _, _ => false
  end.

(** Binary data: a Node [Buffer] with its bytes, any other typed array with
    the bytes per element and the elements, an [ArrayBuffer] (or
    [SharedArrayBuffer]) and a [DataView] with their size in bytes. *)
Inductive binary : Type :=
| Buffer (bytes : list N)
| TypedArray (bytesPerElement : N) (elements : list Q)
| ArrayBuffer (size : N)
| DataView (size : N).

(** Values: the JSON-like fragment plus [undefined], opaque functions and
    binary data.  Numbers are the exactly representable rationals the code
    computes with (byte counts, their quotient by 1024, status codes);
    objects keep their own enumerable properties in insertion order. *)
Inductive jsval : Type :=
| JUndefined
| JNull
| JBool (b : bool)
| JNum (q : Q)
| JStr (s : jsstring)
| JArr (items : list jsval)
| JObj (props : list (jsstring * jsval))
| JFun (id : nat)
| JBin (data : binary).

Inductive jstype := TUndefined | TObject | TBoolean | TNumber | TString | TFunction.

(** [typeof v] *)
Definition typeof (v : jsval) : jstype :=
  match v with
  | JUndefined => TUndefined
  | JNull => TObject
  | JBool _ => TBoolean
  | JNum _ => TNumber
  | JStr _ => TString
  | JArr _ => TObject
  | JObj _ => TObject
  | JFun _ => TFunction
  | JBin _ => TObject
  end.

Definition jstype_eqb (a b : jstype) : bool :=
  match a, b with
  | TUndefined, TUndefined | TObject, TObject | TBoolean, TBoolean
  | TNumber, TNumber | TString, TString | TFunction, TFunction => true
  | _, _ => false
  end.

(** ToBoolean *)
Definition truthy (v : jsval) : bool :=
  match v with
  | JUndefined | JNull => false
  | JBool b => b
  | JNum q => negb (Qeq_bool q 0)
  | JStr s => match s with [] => false | _ => true end
  | JArr _ | JObj _ | JFun _ | JBin _ => true
  end.

(** [a || b] *)
Definition or_else (a b : jsval) : jsval := if truthy a then a else b.

(** [v !== undefined] *)
Definition not_undefined (v : jsval) : bool :=
  match v with JUndefined => false | _ => true end.

Fixpoint lookup (k : jsstring) (ps : list (jsstring * jsval)) : jsval :=
  match ps with
  | [] => JUndefined
  | (k', v) :: ps' => if str_eqb k k' then v else lookup k ps'
  end.

(** [v.k] for the property names the source reads ([message], [fileName],
    [lineNumber], [user-agent]): an own property of an object, [undefined] on
    every other non-nullish value. *)
Definition get (k : jsstring) (v : jsval) : jsval :=
  match v with
  | JObj ps => lookup k ps
  | _ => JUndefined
  end.

Fixpoint get_path (ks : list jsstring) (v : jsval) : jsval :=
  match ks with
  | [] => v
  | k :: ks' => get_path ks' (get k v)
  end.

(** *** Buffer.byteLength(s, 'utf8') *)

Definition is_high_surrogate (u : N) : bool := (N.leb 55296 u && N.leb u 56319)%N.
Definition is_low_surrogate (u : N) : bool := (N.leb 56320 u && N.leb u 57343)%N.

(** Length of the UTF-8 encoding: a surrogate pair is one 4-byte character,
    a lone surrogate is encoded as U+FFFD (3 bytes). *)
Fixpoint utf8_length (s : jsstring) : Z :=
  match s with
  | [] => 0
  | u :: rest =>
      if N.ltb u 128 then 1 + utf8_length rest
      else if N.ltb u 2048 then 2 + utf8_length rest
      else if is_high_surrogate u then
        match rest with
        | v :: rest' =>
            if is_low_surrogate v then 4 + utf8_length rest'
            else 3 + utf8_length rest
        | [] => 3
        end
      else 3 + utf8_length rest
  end.

Inductive exn := TypeError (code : string).

Inductive completion (A : Type) : Type :=
| Normal (a : A)
| Throw (e : exn).
Arguments Normal {A} a.
Arguments Throw {A} e.

(** The [byteLength] of binary data. *)
Definition byteLength (data : binary) : Z :=
  match data with
  | Buffer bytes => Z.of_nat (List.length bytes)
  | TypedArray bytesPerElement elements =>
      Z.of_N bytesPerElement * Z.of_nat (List.length elements)
  | ArrayBuffer size => Z.of_N size
  | DataView size => Z.of_N size
  end.

(** A string argument gives its encoded length, binary data its
    [byteLength]; every other value raises ERR_INVALID_ARG_TYPE. *)
Definition Buffer_byteLength (v : jsval) : completion Z :=
  match v with
  | JStr s => Normal (utf8_length s)
  | JBin data => Normal (byteLength data)
  | _ => Throw (TypeError "ERR_INVALID_ARG_TYPE")
  end.

(** *** JSON.stringify *)

Definition hex_digit (n : N) : N :=
  (if N.ltb n 10 then 48 + n else 87 + n)%N.

(** [\uXXXX] with lower-case hexadecimal digits *)
Definition unicode_escape (u : N) : jsstring :=
  [92; 117; hex_digit (N.div u 4096 mod 16); hex_digit (N.div u 256 mod 16);
   hex_digit (N.div u 16 mod 16); hex_digit (u mod 16)]%N.

Definition escape_unit (u : N) : jsstring :=
  (if N.eqb u 34 then [92; 34]
   else if N.eqb u 92 then [92; 92]
   else if N.eqb u 8 then [92; 98]
   else if N.eqb u 12 then [92; 102]
   else if N.eqb u 10 then [92; 110]
   else if N.eqb u 13 then [92; 114]
   else if N.eqb u 9 then [92; 116]
   else if N.ltb u 32 then unicode_escape u
   else [u])%N.

Fixpoint escape (s : jsstring) : jsstring :=
  match s with
  | [] => []
  | u :: rest =>
      if is_high_surrogate u then
        match rest with
        | v :: rest' =>
            if is_low_surrogate v then u :: v :: escape rest'
            else unicode_escape u ++ escape rest
        | [] => unicode_escape u
        end
      else if is_low_surrogate u then unicode_escape u ++ escape rest
      else escape_unit u ++ escape rest
  end.

(** QuoteJSONString *)
Definition quote (s : jsstring) : jsstring := [34%N] ++ escape s ++ [34%N].

Fixpoint join (sep : jsstring) (parts : list jsstring) : jsstring :=
  match parts with
  | [] => []
  | [p] => p
  | p :: ps => p ++ sep ++ join sep ps
  end.

Section Stringify.

(** Number::toString of the engine. *)
Variable Number_toString : Q -> jsstring.

(** The members of a typed array: its elements under their indices. *)
Fixpoint indexed (i : Z) (elements : list Q) : list jsstring :=
  match elements with
  | [] => []
  | e :: rest =>
      (quote (Number_toString (inject_Z i)) ++ lit ":" ++ Number_toString e)
      :: indexed (i + 1) rest
  end.

(** The JSON text of binary data: a Buffer through its [toJSON], a typed
    array as the object of its elements, an ArrayBuffer or DataView as the
    empty object. *)
Definition stringify_binary (data : binary) : jsstring :=
  match data with
  | Buffer bytes =>
      lit "{" ++ quote (lit "type") ++ lit ":" ++ quote (lit "Buffer")
      ++ lit "," ++ quote (lit "data") ++ lit ":["
      ++ join (lit ",")
           (map (fun b => Number_toString (inject_Z (Z.of_N b))) bytes)
      ++ lit "]}"
  | TypedArray _ elements =>
      lit "{" ++ join (lit ",") (indexed 0 elements) ++ lit "}"
  | ArrayBuffer _ => lit "{}"
  | DataView _ => lit "{}"
  end.

(** [None] stands for the [undefined] that JSON.stringify returns for
    [undefined] and functions; inside an array these become [null], inside
    an object the property is left out. *)
Fixpoint stringify (v : jsval) : option jsstring :=
  match v with
  | JUndefined => None
  | JFun _ => None
  | JNull => Some (lit "null")
  | JBool true => Some (lit "true")
  | JBool false => Some (lit "false")
  | JNum q => Some (Number_toString q)
  | JStr s => Some (quote s)
  | JBin data => Some (stringify_binary data)
  | JArr items =>
      Some (lit "[" ++
            join (lit ",")
              ((fix elements (l : list jsval) : list jsstring :=
                  match l with
                  | [] => []
                  | x :: l' =>
                      match stringify x with
                      | Some s => s
                      | None => lit "null"
                      end :: elements l'
                  end) items)
            ++ lit "]")
  | JObj props =>
      Some (lit "{" ++
            join (lit ",")
              ((fix members (l : list (jsstring * jsval)) : list jsstring :=
                  match l with
                  | [] => []
                  | (k, x) :: l' =>
                      match stringify x with
                      | Some s => (quote k ++ lit ":" ++ s) :: members l'
                      | None => members l'
                      end
                  end) props)
            ++ lit "}")
  end.

(** JSON.stringify(v) as a value. *)
Definition JSON_stringify (v : jsval) : jsval :=
  match stringify v with
  | Some s => JStr s
  | None => JUndefined
  end.

End Stringify.

End JS.

Import JS.

(** ** The Node runtime seen by the middleware *)

(** What the code reads from its environment at one point in time: the
    engine's number printing and upper-casing, [Intl], [os], [process],
    [new Date()] and the raw reading of the high-resolution clock as
    [[seconds, nanoseconds]]. *)
Record runtime := {
  Number_toString : Q -> jsstring;
  String_toUpperCase : jsstring -> jsstring;
  Intl_timeZone : jsval;
  os_platform : jsval;
  os_release : jsval;
  os_arch : jsval;
  process_version : jsval;
  Date_toISOString : jsstring;
  hrtime_clock : Z * Z
}.

(** [process.hrtime([time])]: the clock reading, or the difference to an
    earlier reading with the nanoseconds borrowed into [0, 1e9). *)
Definition process_hrtime (rt : runtime) (time : option (Z * Z)) : Z * Z :=
  match time with
  | None => hrtime_clock rt
  | Some prev =>
      let sec := fst (hrtime_clock rt) - fst prev in
      let nsec := snd (hrtime_clock rt) - snd prev in
      if nsec <? 0 then (sec - 1, nsec + 1000000000) else (sec, nsec)
  end.

(** [Math.ceil] on the rationals. *)
Definition Math_ceil (x : Q) : Z := Qceiling x.

(** *** Arithmetic on doubles *)

(** The nearest integer, ties to the even one. *)
Definition nearest_even (x : Q) : Z :=
  let f := Qfloor x in
  match Qcompare (x - inject_Z f) (1 # 2) with
  | Lt => f
  | Gt => f + 1
  | Eq => if Z.even f then f else f + 1
  end.

Definition pow2 (e : Z) : Q := Qpower 2 e.

(** For a positive [x], the [l] with [2^l <= x < 2^(l+1)]. *)
Definition floor_log2 (x : Q) : Z :=
  let l := Z.log2 (Qnum x) - Z.log2 (Zpos (Qden x)) in
  if Qle_bool (pow2 l) x then l else l - 1.

(** A positive rational rounded to 53 significant bits. *)
Definition round_positive (x : Q) : Q :=
  let e := floor_log2 x - 52 in
  (inject_Z (nearest_even (x / pow2 e)) * pow2 e)%Q.

(** The double nearest to a rational, ties to even.  The exponent range of
    the format is left out: nothing overflows to [Infinity] or is rounded as
    a subnormal. *)
Definition to_double (x : Q) : Q :=
  match Qcompare x 0 with
  | Eq => 0%Q
  | Gt => round_positive x
  | Lt => (- round_positive (- x))%Q
  end.

(** [a * b], [a + b] and [a / b] on doubles. *)
Definition double_mul (a b : Q) : Q := to_double (a * b).
Definition double_add (a b : Q) : Q := to_double (a + b).
Definition double_div (a b : Q) : Q := to_double (a / b).

(** [s.replace("T", " ")]: the first occurrence only. *)
Fixpoint replace_first (pat by_ : N) (s : jsstring) : jsstring :=
  match s with
  | [] => []
  | u :: rest => if N.eqb u pat then by_ :: rest else u :: replace_first pat by_ rest
  end.

(** [s.substr(0, n)] *)
Definition substr0 (n : nat) (s : jsstring) : jsstring := firstn n s.

(** Header names are compared in lower case, as [getHeader] does. *)
Definition lower_unit (u : N) : N :=
  (if N.leb 65 u && N.leb u 90 then u + 32 else u)%N.

Definition lower (s : jsstring) : jsstring := map lower_unit s.

(** ** Requests, responses and the host framework *)

Record request := {
  req_body : jsval;
  req_headers : list (jsstring * jsval);
  req_method : jsval;
  req_originalUrl : jsval;
  req_ip : jsval;
  req_protocol : jsstring;
  req_httpVersion : jsstring
}.

(** The response object: the scratch field the wrappers write, the fields
    the completion callback reads, and [wire], the bytes the host has
    delivered to the client. *)
Record response := {
  __apiHat_body_response : jsval;
  statusCode : jsval;
  headers : list (jsstring * jsval);
  locals_error : jsval;
  wire : list N
}.

Definition set_body_response (v : jsval) (res : response) : response :=
  {| __apiHat_body_response := v;
     statusCode := statusCode res;
     headers := headers res;
     locals_error := locals_error res;
     wire := wire res |}.

Definition set_statusCode (c : jsval) (res : response) : response :=
  {| __apiHat_body_response := __apiHat_body_response res;
     statusCode := c;
     headers := headers res;
     locals_error := locals_error res;
     wire := wire res |}.

(** [res.get(name)] and [res.getHeaders()] *)
Definition res_get (name : jsstring) (res : response) : jsval :=
  lookup (lower name) (headers res).

Definition res_getHeaders (res : response) : jsval := JObj (headers res).

(** The two method slots of the response the middleware replaces.  A method
    takes its arguments and the response it is bound to, and gives back its
    return value and the response after the call. *)
Record methods := {
  send : jsval -> response -> jsval * response;
  render : jsval -> jsval -> jsval -> response -> jsval * response
}.

(** ** Effects of the completion callback *)

(** One call of [fetch(url, options)]. *)
Record fetch_call := {
  fetch_url : jsstring;
  fetch_method : jsstring;
  fetch_headers : list (jsstring * jsval);
  fetch_body : jsval
}.

(** What the callback can touch: the response object, the outbound calls
    issued so far, and the two console streams. *)
Record world := {
  w_res : response;
  w_fetch : list fetch_call;
  w_stdout : list jsstring;
  w_stderr : list (jsstring * jsval)
}.

(** Computations that read and write the world and may throw. *)
Definition M (A : Type) : Type := world -> completion A * world.

Definition ret {A} (a : A) : M A := fun w => (Normal a, w).

Definition bind {A B} (m : M A) (k : A -> M B) : M B :=
  fun w =>
    match m w with
    | (Normal a, w') => k a w'
    | (Throw e, w') => (Throw e, w')
    end.

Definition lift {A} (c : completion A) : M A := fun w => (c, w).

Definition the_response : M response := fun w => (Normal (w_res w), w).

Notation "x <- m ;; k" := (bind m (fun x => k))
  (at level 61, m at next level, right associativity).

(** [fetch(url, {method, headers, body})]: the call is recorded; its promise
    settles later, see [fetch_settles]. *)
Definition fetch (c : fetch_call) : M unit :=
  fun w =>
    (Normal tt,
     {| w_res := w_res w;
        w_fetch := w_fetch w ++ [c];
        w_stdout := w_stdout w;
        w_stderr := w_stderr w |}).

Definition console_log (line : jsstring) : M jsval :=
  fun w =>
    (Normal JUndefined,
     {| w_res := w_res w;
        w_fetch := w_fetch w;
        w_stdout := w_stdout w ++ [line];
        w_stderr := w_stderr w |}).

Definition console_error (line : jsstring) (err : jsval) : M jsval :=
  fun w =>
    (Normal JUndefined,
     {| w_res := w_res w;
        w_fetch := w_fetch w;
        w_stdout := w_stdout w;
        w_stderr := w_stderr w ++ [(line, err)] |}).

(** *** Promises *)

(** Why a promise is rejected: an exception thrown in a callback, or the
    error object the transport failed with. *)
Inductive reason := Thrown (e : exn) | Failure (err : jsval).

Definition reason_value (r : reason) : jsval :=
  match r with
  | Thrown (TypeError c) => JObj [(lit "code", JStr (lit c))]
  | Failure err => err
  end.

Inductive settled (A : Type) : Type :=
| Fulfilled (a : A)
| Rejected (r : reason).
Arguments Fulfilled {A} a.
Arguments Rejected {A} r.

(** [p.then(f)] and [p.catch(h)] once [p] has settled. *)
Definition then_ {A B} (p : settled A) (f : A -> M B) : world -> settled B * world :=
  fun w =>
    match p with
    | Fulfilled a =>
        match f a w with
        | (Normal b, w') => (Fulfilled b, w')
        | (Throw e, w') => (Rejected (Thrown e), w')
        end
    | Rejected r => (Rejected r, w)
    end.

Definition catch_ {A} (p : settled A) (h : jsval -> M A) : world -> settled A * world :=
  fun w =>
    match p with
    | Fulfilled a => (Fulfilled a, w)
    | Rejected r =>
        match h (reason_value r) w with
        | (Normal a, w') => (Fulfilled a, w')
        | (Throw e, w') => (Rejected (Thrown e), w')
        end
    end.

(** The part of the collector's answer the code looks at. *)
Record fetch_response := {
  ok : bool;
  statusText : jsstring
}.

(** ** The source functions *)

(** [maskSensitiveValues(payload, fieldsToMaskMap)] *)
Definition maskSensitiveValues (payload fieldsToMaskMap : jsval) : jsval :=
  payload.

(** [getRequestDuration(startTime)], in the double arithmetic of the
    engine.  The two components of the difference are integers and enter
    as they are. *)
Definition getRequestDuration (rt : runtime) (startTime : Z * Z) : Z :=
  let NS_PER_SEC := inject_Z 1000000000 in
  let NS_TO_MICRO := inject_Z 1000 in
  let diff := process_hrtime rt (Some startTime) in
  Math_ceil
    (double_div
       (double_add (double_mul (inject_Z (fst diff)) NS_PER_SEC)
          (inject_Z (snd diff)))
       NS_TO_MICRO).

(** The object literals [useApiHat] hands to [sendPayloadToApiHat]. *)
Record requestData := {
  rq_body : jsval;
  rq_headers : list (jsstring * jsval);
  rq_method : jsval;
  rq_url : jsval;
  rq_ip : jsval;
  rq_protocol : jsstring;
  rq_httpVersion : jsstring;
  rq_size : Z
}.

Record responseData := {
  rs_body : jsval;
  rs_headers : jsval;
  rs_statusCode : jsval;
  rs_length : jsval
}.

(** [typeof body === 'object' ? JSON.stringify(body) : body || ''] *)
Definition bodyString (rt : runtime) (body : jsval) : jsval :=
  if jstype_eqb (typeof body) TObject
  then JSON_stringify (Number_toString rt) body
  else or_else body (JStr []).

(** The [errors] array: one descriptor when [error] is truthy. *)
Definition errors_of (error : jsval) : list jsval :=
  if truthy error then
    [JObj [(lit "source", JStr (lit "onException"));
           (lit "type", JStr (lit "UNHANDLED_EXCEPTION"));
           (lit "message", get (lit "message") error);
           (lit "file", get (lit "fileName") error);
           (lit "line", get (lit "lineNumber") error)]]
  else [].

(** The array literal [dataToSend]. *)
Definition dataToSend (rt : runtime) (apiKey projectId : jsval)
  (requestData : requestData) (responseData : responseData)
  (requestStartTime : Z * Z) (errors : list jsval) (fieldsToMaskMap : jsval)
  (maskedRequestPayload maskedResponsePayload : jsval)
  (protocol : jsstring) (requestSizeInKB responseSizeInKB : Q) : jsval :=
  JArr [
    JObj [
      (lit "api_key", apiKey);
      (lit "project_id", projectId);
      (lit "version", JStr (lit "1.0.0"));
      (lit "sdk", JStr (lit "node"));
      (lit "data", JObj [
        (lit "server", JObj [
          (lit "timezone", Intl_timeZone rt);
          (lit "os", JObj [
            (lit "name", os_platform rt);
            (lit "release", os_release rt);
            (lit "architecture", os_arch rt)]);
          (lit "software", JNull);
          (lit "signature", JNull);
          (lit "protocol", JStr protocol)]);
        (lit "language", JObj [
          (lit "name", JStr (lit "node"));
          (lit "version", process_version rt)]);
        (lit "request", JObj [
          (lit "timestamp",
             JStr (substr0 19 (replace_first 84 32 (Date_toISOString rt))));
          (lit "ip", rq_ip requestData);
          (lit "url", rq_url requestData);
          (lit "user_agent", lookup (lit "user-agent") (rq_headers requestData));
          (lit "method", rq_method requestData);
          (lit "headers",
             maskSensitiveValues (JObj (rq_headers requestData)) fieldsToMaskMap);
          (lit "body",
             if not_undefined maskedRequestPayload
             then maskedRequestPayload else JNull);
          (lit "size", JNum requestSizeInKB)]);
        (lit "response", JObj [
          (lit "headers",
             maskSensitiveValues (rs_headers responseData) fieldsToMaskMap);
          (lit "code", rs_statusCode responseData);
          (lit "size", JNum responseSizeInKB);
          (lit "load_time",
             JNum (inject_Z (getRequestDuration rt requestStartTime)));
          (lit "body",
             if not_undefined maskedResponsePayload
             then maskedResponsePayload else JNull)]);
        (lit "errors", JArr errors)])]].

(** [sendPayloadToApiHat(apiKey, projectId, requestData, responseData,
    requestStartTime, error, fieldsToMaskMap)], up to the call of [fetch]. *)
Definition sendPayloadToApiHat (rt : runtime) (apiKey projectId : jsval)
  (requestData : requestData) (responseData : responseData)
  (requestStartTime : Z * Z) (error fieldsToMaskMap : jsval) : M unit :=
  let maskedRequestPayload :=
    maskSensitiveValues (rq_body requestData) fieldsToMaskMap in
  let maskedResponsePayload :=
    maskSensitiveValues (rs_body responseData) fieldsToMaskMap in
  let errors := errors_of error in
  let protocol :=
    String_toUpperCase rt (rq_protocol requestData)
      ++ lit "/" ++ rq_httpVersion requestData in
  let requestBodyString := bodyString rt (rq_body requestData) in
  let responseBodyString := bodyString rt (rs_body responseData) in
  requestBytes <- lift (Buffer_byteLength requestBodyString) ;;
  let requestSizeInKB := (inject_Z requestBytes / inject_Z 1024)%Q in
  responseBytes <- lift (Buffer_byteLength responseBodyString) ;;
  let responseSizeInKB := (inject_Z responseBytes / inject_Z 1024)%Q in
  let dataToSend :=
    dataToSend rt apiKey projectId requestData responseData requestStartTime
      errors fieldsToMaskMap maskedRequestPayload maskedResponsePayload
      protocol requestSizeInKB responseSizeInKB in
  fetch {| fetch_url := lit "https://api.apihat.com/api/requests";
           fetch_method := lit "POST";
           fetch_headers :=
             [(lit "Content-Type", JStr (lit "application/json"));
              (lit "x-api-key", apiKey)];
           fetch_body := JSON_stringify (Number_toString rt) dataToSend |}.

(** The continuation of the promise [fetch] returned:
    [.then(response => ...).catch(error => ...)], run when the outbound call
    has settled. *)
Definition on_response (response : fetch_response) : M jsval :=
  if negb (ok response)
  then console_log (lit "[error] Sending data to API Hat failed: "
                      ++ statusText response)
  else ret JUndefined.

Definition on_failure (error : jsval) : M jsval :=
  console_error (lit "[error] Sending data to API Hat failed") error.

Definition fetch_settles (outcome : settled fetch_response)
  : world -> settled jsval * world :=
  fun w =>
    let (p, w') := then_ outcome on_response w in
    catch_ p on_failure w'.

(** The two wrappers [useApiHat] installs over the original methods. *)
Definition send_wrapper (originalSend : jsval -> response -> jsval * response)
  (body : jsval) : response -> jsval * response :=
  fun res =>
    let res := set_body_response body res in
    let (_, res) := originalSend body res in
    (JUndefined, res).

Definition render_wrapper
  (originalRender : jsval -> jsval -> jsval -> response -> jsval * response)
  (view options callback : jsval) : response -> jsval * response :=
  fun res =>
    let (options, callback) :=
      if jstype_eqb (typeof options) TFunction
      then (JObj [], options)
      else (options, callback) in
    let res := set_body_response view res in
    let (_, res) := originalRender view options callback res in
    (JUndefined, res).

(** The response data of the listener, with
    [res.get("Content-Length") || Buffer.byteLength(body || '', 'utf8')]
    as its [length]. *)
Definition responseData_of (res : response) : completion responseData :=
  let contentLength := res_get (lit "Content-Length") res in
  match
    (if truthy contentLength then Normal contentLength
     else
       match Buffer_byteLength
               (or_else (__apiHat_body_response res) (JStr [])) with
       | Normal n => Normal (JNum (inject_Z n))
       | Throw e => Throw e
       end)
  with
  | Normal responseSize =>
      Normal {| rs_body := __apiHat_body_response res;
                rs_headers := res_getHeaders res;
                rs_statusCode := statusCode res;
                rs_length := responseSize |}
  | Throw e => Throw e
  end.

Definition requestData_of (req : request) (requestSize : Z) : requestData :=
  {| rq_body := req_body req;
     rq_headers := req_headers req;
     rq_method := req_method req;
     rq_url := req_originalUrl req;
     rq_ip := req_ip req;
     rq_protocol := req_protocol req;
     rq_httpVersion := req_httpVersion req;
     rq_size := requestSize |}.

(** The listener registered with [res.on("finish", ...)]; [rt] is the
    runtime at the time the event fires. *)
Definition on_finish (rt : runtime) (apiKey projectId : jsval) (req : request)
  (requestStartTime : Z * Z) (requestSize : Z) : M unit :=
  res <- the_response ;;
  let error := or_else (locals_error res) JNull in
  let fieldsToMaskMap := JObj [] in
  responseData <- lift (responseData_of res) ;;
  sendPayloadToApiHat rt apiKey projectId
    (requestData_of req requestSize) responseData
    requestStartTime error fieldsToMaskMap.

(** What one run of the middleware leaves behind: the methods now in the
    response's slots, the response after the rest of the pipeline has run,
    and the registered listener. *)
Record installed := {
  i_methods : methods;
  i_res : response;
  i_finish : runtime -> M unit
}.

(** [useApiHat({ apiKey, projectId })(req, res, next)].  [original] holds the
    methods found on [res]; [next] runs the rest of the pipeline, which calls
    whatever methods the response carries at that time. *)
Definition useApiHat (apiKey projectId : jsval) (rt : runtime) (req : request)
  (original : methods) (res : response)
  (next : methods -> response -> response) : completion installed :=
  let requestStartTime := process_hrtime rt None in
  let originalSend := send original in
  let originalRender := render original in
  match Buffer_byteLength
          (JSON_stringify (Number_toString rt)
             (or_else (req_body req) (JStr []))) with
  | Throw e => Throw e
  | Normal requestSize =>
      let wrapped := {| send := send_wrapper originalSend;
                        render := render_wrapper originalRender |} in
      let res := next wrapped res in
      Normal {| i_methods := wrapped;
                i_res := res;
                i_finish := fun rt' =>
                  on_finish rt' apiKey projectId req requestStartTime requestSize |}
  end.

(** ** Handlers *)

(** The rest of the pipeline as the sequence of calls it makes on the
    response. *)
Inductive call :=
| CallSend (body : jsval)
| CallRender (view options callback : jsval)
| CallStatus (code : jsval).

Definition run_call (m : methods) (c : call) (res : response) : response :=
  match c with
  | CallSend body => snd (send m body res)
  | CallRender view options callback => snd (render m view options callback res)
  | CallStatus code => set_statusCode code res
  end.

Fixpoint run_handler (m : methods) (h : list call) (res : response) : response :=
  match h with
  | [] => res
  | c :: h' => run_handler m h' (run_call m c res)
  end.

(** ** A concrete runtime and host, for evaluation *)

Module Sample.

Fixpoint digits (fuel : nat) (n : N) (acc : jsstring) : jsstring :=
  match fuel with
  | O => acc
  | S fuel' =>
      let acc' := (48 + n mod 10)%N :: acc in
      if N.ltb n 10 then acc' else digits fuel' (n / 10)%N acc'
  end.

Fixpoint decimals (fuel : nat) (r d : N) : jsstring :=
  match fuel with
  | O => []
  | S fuel' =>
      if N.eqb r 0 then []
      else (48 + (10 * r) / d)%N :: decimals fuel' ((10 * r) mod d)%N d
  end.

(** Prints the non-negative numbers of the samples in decimal notation:
    integers, and byte counts divided by 1024. *)
Definition number_toString (q : Q) : jsstring :=
  match Qnum q with
  | Zpos p =>
      let n := Npos p in
      let d := Npos (Qden q) in
      digits 20 (n / d)%N []
      ++ (if N.eqb (n mod d) 0 then [] else lit "." ++ decimals 30 (n mod d)%N d)
  | _ => lit "0"
  end.

Definition upper_unit (u : N) : N :=
  (if N.leb 97 u && N.leb u 122 then u - 32 else u)%N.

Definition rt : runtime :=
  {| Number_toString := number_toString;
     String_toUpperCase := map upper_unit;
     Intl_timeZone := JStr (lit "UTC");
     os_platform := JStr (lit "linux");
     os_release := JStr (lit "6.1.0");
     os_arch := JStr (lit "x64");
     process_version := JStr (lit "v20.11.0");
     Date_toISOString := lit "2024-05-06T07:08:09.123Z";
     hrtime_clock := (12, 100) |}.

(** A host whose [send] writes the text of a string body to the client and
    whose [render] writes the view name, treating a function given as
    options as the callback. *)
Definition host : methods :=
  {| send := fun body res =>
       (JUndefined,
        {| __apiHat_body_response := __apiHat_body_response res;
           statusCode := statusCode res;
           headers := headers res;
           locals_error := locals_error res;
           wire := wire res ++ match body with JStr s => s | _ => [] end |});
     render := fun view options callback res =>
       (JUndefined,
        {| __apiHat_body_response := __apiHat_body_response res;
           statusCode := statusCode res;
           headers := headers res;
           locals_error := locals_error res;
           wire := wire res ++ match view with JStr s => s | _ => [] end |}) |}.


Definition res0 : response :=
  {| __apiHat_body_response := JUndefined;
     statusCode := JNum 200;
     headers := [(lit "content-length", JStr (lit "11"))];
     locals_error := JUndefined;
     wire := [] |}.

Definition get_request : request :=
  {| req_body := JUndefined;
     req_headers := [(lit "user-agent", JStr (lit "curl/8.0"))];
     req_method := JStr (lit "GET");
     req_originalUrl := JStr (lit "/health");
     req_ip := JStr (lit "127.0.0.1");
     req_protocol := lit "http";
     req_httpVersion := lit "1.1" |}.

Definition world_of (res : response) : world :=
  {| w_res := res; w_fetch := []; w_stdout := []; w_stderr := [] |}.

Definition apiKey : jsval := JStr (lit "key-123").
Definition projectId : jsval := JStr (lit "project-7").

(** The object [{ok: true}] and its JSON text. *)
Definition ok_body : jsval := JObj [(lit "ok", JBool true)].
Definition ok_text : jsstring :=
  [123; 34; 111; 107; 34; 58; 116; 114; 117; 101; 125]%N.

Definition rqd : requestData :=
  {| rq_body := JUndefined;
     rq_headers := [(lit "user-agent", JStr (lit "curl/8.0"))];
     rq_method := JStr (lit "GET");
     rq_url := JStr (lit "/health");
     rq_ip := JStr (lit "127.0.0.1");
     rq_protocol := lit "http";
     rq_httpVersion := lit "1.1";
     rq_size := 2 |}.

Definition rsd : responseData :=
  {| rs_body := ok_body;
     rs_headers := JObj [(lit "content-length", JStr (lit "11"))];
     rs_statusCode := JNum 200;
     rs_length := JStr (lit "11") |}.

(** Two responses announcing five bytes, with different captured bodies. *)
Definition res_hello : response :=
  {| __apiHat_body_response := JStr (lit "hello world");
     statusCode := JNum 200;
     headers := [(lit "content-length", JStr (lit "5"))];
     locals_error := JUndefined;
     wire := [] |}.

Definition res_hi : response :=
  {| __apiHat_body_response := JStr (lit "hi");
     statusCode := JNum 200;
     headers := [(lit "content-length", JStr (lit "5"))];
     locals_error := JUndefined;
     wire := [] |}.

(** A response without Content-Length. *)
Definition res_plain : response :=
  {| __apiHat_body_response := JStr (lit "hello world");
     statusCode := JNum 200;
     headers := [];
     locals_error := JUndefined;
     wire := [] |}.

(** A failed request: the pipeline has attached an error. *)
Definition boom : jsval :=
  JObj [(lit "message", JStr (lit "boom")); (lit "lineNumber", JNum 42)].

Definition res_failed : response :=
  {| __apiHat_body_response := JStr (lit "Internal Server Error");
     statusCode := JNum 500;
     headers := [(lit "content-length", JStr (lit "21"))];
     locals_error := boom;
     wire := [] |}.

End Sample.

(** ** Vocabulary of the statements *)

Definition is_string (v : jsval) : bool :=
  match v with JStr _ => true | _ => false end.

(** The text of a string value, empty for every other value. *)
Definition text_of (v : jsval) : jsstring :=
  match v with JStr s => s | _ => [] end.

(** The methods found in the slots of the response once the middleware has
    run over [original]. *)
Definition wrapped (original : methods) : methods :=
  {| send := send_wrapper (send original);
     render := render_wrapper (render original) |}.

(** A string, or a falsy value, which [v || ''] turns into one. *)
Definition stringish (v : jsval) : bool := is_string v || negb (truthy v).

(** The bodies whose size [sendPayloadToApiHat] can take: objects, strings
    and falsy values. *)
Definition measurable (v : jsval) : bool :=
  jstype_eqb (typeof v) TObject || stringish v.

(** States from which the listener reaches the transmission: a truthy
    Content-Length header or a captured string (or nothing captured), and
    bodies whose size the reporter can take. *)
Definition finish_ready (req : request) (res : response) : bool :=
  (truthy (res_get (lit "Content-Length") res)
   || stringish (__apiHat_body_response res))
  && measurable (req_body req)
  && measurable (__apiHat_body_response res).

Definition add_fetch (w : world) (c : fetch_call) : world :=
  {| w_res := w_res w;
     w_fetch := w_fetch w ++ [c];
     w_stdout := w_stdout w;
     w_stderr := w_stderr w |}.

(** [c] carries the record [rec]: its body is the JSON text of the
    one-element array [[rec]]. *)
Definition carries (rt : runtime) (c : fetch_call) (rec : jsval) : Prop :=
  fetch_body c = JSON_stringify (Number_toString rt) (JArr [rec]).

(** [m], run in [w], completes having issued exactly the call [c]. *)
Definition transmits (m : M unit) (w : world) (c : fetch_call) : Prop :=
  m w = (Normal tt, add_fetch w c).

(** Fields of a Telemetry Record. *)
Definition request_body := get_path [lit "data"; lit "request"; lit "body"].
Definition request_size := get_path [lit "data"; lit "request"; lit "size"].
Definition response_body := get_path [lit "data"; lit "response"; lit "body"].
Definition response_code := get_path [lit "data"; lit "response"; lit "code"].
Definition response_size := get_path [lit "data"; lit "response"; lit "size"].
Definition response_load_time :=
  get_path [lit "data"; lit "response"; lit "load_time"].
Definition record_errors := get_path [lit "data"; lit "errors"].

(** Elapsed nanoseconds between two clock readings. *)
Definition nanoseconds (t : Z * Z) : Z := fst t * 1000000000 + snd t.

(** The serialized body in the words of the specification: an object is
    JSON-stringified (for [typeof], arrays and [null] are objects), an absent
    body is the empty string, a string is itself.  Other bodies are not
    covered by the specification. *)
Definition serialized_body (rt : runtime) (body : jsval) : option jsstring :=
  match body with
  | JUndefined => Some []
  | JStr s => Some s
  | JNull | JArr _ | JObj _ | JBin _ => stringify (Number_toString rt) body
  | JBool _ | JNum _ | JFun _ => None
  end.

(** Two responses that differ at most in the scratch field. *)
Definition same_delivery (r r' : response) : Prop :=
  statusCode r = statusCode r' /\ headers r = headers r'
  /\ locals_error r = locals_error r' /\ wire r = wire r'.

(** A host whose methods neither read the scratch field for what they
    deliver, nor tell a function passed as options from a callback. *)
Record scratch_blind (original : methods) : Prop := {
  send_blind : forall body r r',
    same_delivery r r' ->
    same_delivery (snd (send original body r)) (snd (send original body r'));
  render_blind : forall view options callback r r',
    same_delivery r r' ->
    same_delivery (snd (render original view options callback r))
                  (snd (render original view options callback r'));
  render_normalises : forall view f callback r,
    same_delivery (snd (render original view (JFun f) callback r))
                  (snd (render original view (JObj []) (JFun f) r))
}.


(** The reported response size is a function of the Content-Length header
    whenever that header is present. *)
Definition size_taken_from_header (rt : runtime) (apiKey projectId : jsval)
  (req : request) (start : Z * Z) (requestSize : Z) (w1 w2 : world) : Prop :=
  not_undefined (res_get (lit "Content-Length") (w_res w1)) = true ->
  res_get (lit "Content-Length") (w_res w1)
  = res_get (lit "Content-Length") (w_res w2) ->
  forall c1 c2 rec1 rec2,
    transmits (on_finish rt apiKey projectId req start requestSize) w1 c1 ->
    transmits (on_finish rt apiKey projectId req start requestSize) w2 c2 ->
    carries rt c1 rec1 -> carries rt c2 rec2 ->
    response_size rec1 = response_size rec2.

(** ** Further vocabulary *)

Definition request_timestamp :=
  get_path [lit "data"; lit "request"; lit "timestamp"].
Definition request_headers :=
  get_path [lit "data"; lit "request"; lit "headers"].
Definition response_headers :=
  get_path [lit "data"; lit "response"; lit "headers"].

(** The request data with another [size], the response data with another
    [length]. *)
Definition with_size (n : Z) (rqd : requestData) : requestData :=
  {| rq_body := rq_body rqd;
     rq_headers := rq_headers rqd;
     rq_method := rq_method rqd;
     rq_url := rq_url rqd;
     rq_ip := rq_ip rqd;
     rq_protocol := rq_protocol rqd;
     rq_httpVersion := rq_httpVersion rqd;
     rq_size := n |}.

Definition with_length (l : jsval) (rsd : responseData) : responseData :=
  {| rs_body := rs_body rsd;
     rs_headers := rs_headers rsd;
     rs_statusCode := rs_statusCode rsd;
     rs_length := l |}.

(** The first argument of the last [send] or [render] among the calls [h],
    or [init] when there is none. *)
Definition captured (h : list call) (init : jsval) : jsval :=
  fold_left
    (fun acc c =>
       match c with
       | CallSend body => body
       | CallRender view _ _ => view
       | CallStatus _ => acc
       end)
    h init.

(** A host whose methods leave the scratch field as they find it. *)
Record scratch_keeping (original : methods) : Prop := {
  send_keeps : forall body r,
    __apiHat_body_response (snd (send original body r))
    = __apiHat_body_response r;
  render_keeps : forall view options callback r,
    __apiHat_body_response (snd (render original view options callback r))
    = __apiHat_body_response r
}.

(** The descriptor of an error without [fileName] and [lineNumber]. *)
Definition short_descriptor (error : jsval) : jsval :=
  JObj [(lit "source", JStr (lit "onException"));
        (lit "type", JStr (lit "UNHANDLED_EXCEPTION"));
        (lit "message", get (lit "message") error)].

Module Cases.

(** A response whose captured body is an object, without Content-Length. *)
Definition res_object : response :=
  {| __apiHat_body_response := Sample.ok_body;
     statusCode := JNum 200;
     headers := [];
     locals_error := JUndefined;
     wire := [] |}.

(** A response whose captured body is the number 404. *)
Definition res_number : response :=
  {| __apiHat_body_response := JNum 404;
     statusCode := JNum 404;
     headers := [(lit "content-length", JStr (lit "9"))];
     locals_error := JUndefined;
     wire := [] |}.

Definition rsd_number : responseData :=
  {| rs_body := JNum 404;
     rs_headers := JObj [];
     rs_statusCode := JNum 404;
     rs_length := JStr (lit "9") |}.

Definition function_request : request :=
  {| req_body := JFun 0;
     req_headers := [];
     req_method := JStr (lit "POST");
     req_originalUrl := JStr (lit "/");
     req_ip := JUndefined;
     req_protocol := lit "http";
     req_httpVersion := lit "1.1" |}.

(** The runtime some nanoseconds after [Sample.rt]. *)
Definition later (ns : Z) : runtime :=
  {| Number_toString := Number_toString Sample.rt;
     String_toUpperCase := String_toUpperCase Sample.rt;
     Intl_timeZone := Intl_timeZone Sample.rt;
     os_platform := os_platform Sample.rt;
     os_release := os_release Sample.rt;
     os_arch := os_arch Sample.rt;
     process_version := process_version Sample.rt;
     Date_toISOString := Date_toISOString Sample.rt;
     hrtime_clock := (12, 100 + ns) |}.

Definition calls : list call :=
  [CallSend (JStr (lit "first"));
   CallStatus (JNum 201);
   CallRender (JStr (lit "index")) (JFun 0) JUndefined].

End Cases.

(** ** Vocabulary of the revised statements *)

(** The values [Buffer.byteLength] accepts: strings and binary data. *)
Definition byteLength_accepts (v : jsval) : bool :=
  match v with
  | JStr _ => true
  | JBin _ => true
  | _ => false
  end.

(** Plain objects and arrays, as opposed to [null] and binary data. *)
Definition plain_object (v : jsval) : bool :=
  match v with
  | JObj _ => true
  | JArr _ => true
  | _ => false
  end.

Definition is_binary (v : jsval) : bool :=
  match v with
  | JBin _ => true
  | _ => false
  end.

(** The listener reaches the transmission exactly from these states. *)
Definition listener_ready (req : request) (res : response) : bool :=
  (truthy (res_get (lit "Content-Length") res)
   || byteLength_accepts (or_else (__apiHat_body_response res) (JStr [])))
  && measurable (req_body req)
  && measurable (__apiHat_body_response res).

(** The remaining fields of a Telemetry Record. *)
Definition server_timezone :=
  get_path [lit "data"; lit "server"; lit "timezone"].
Definition server_os_name :=
  get_path [lit "data"; lit "server"; lit "os"; lit "name"].
Definition server_os_release :=
  get_path [lit "data"; lit "server"; lit "os"; lit "release"].
Definition server_os_architecture :=
  get_path [lit "data"; lit "server"; lit "os"; lit "architecture"].
Definition server_software :=
  get_path [lit "data"; lit "server"; lit "software"].
Definition server_signature :=
  get_path [lit "data"; lit "server"; lit "signature"].
Definition server_protocol :=
  get_path [lit "data"; lit "server"; lit "protocol"].
Definition language_name :=
  get_path [lit "data"; lit "language"; lit "name"].
Definition language_version :=
  get_path [lit "data"; lit "language"; lit "version"].
Definition request_ip := get_path [lit "data"; lit "request"; lit "ip"].
Definition request_url := get_path [lit "data"; lit "request"; lit "url"].
Definition request_user_agent :=
  get_path [lit "data"; lit "request"; lit "user_agent"].
Definition request_method :=
  get_path [lit "data"; lit "request"; lit "method"].

(** The names of the properties of an object, in order. *)
Definition keys (v : jsval) : list jsstring :=
  match v with
  | JObj props => map fst props
  | _ => []
  end.

(** A clock reading as [process.hrtime()] gives it: the nanoseconds below
    one second. *)
Definition hrtime_reading (t : Z * Z) : Prop := 0 <= snd t < 1000000000.

(** The two readings are well formed and between 0 and 2^53 nanoseconds
    (about 104 days) apart. *)
Definition within_double_precision (rt : runtime) (start : Z * Z) : Prop :=
  hrtime_reading (hrtime_clock rt) /\ hrtime_reading start
  /\ 0 <= nanoseconds (hrtime_clock rt) - nanoseconds start < 2 ^ 53.

(** The request duration is the elapsed nanoseconds divided by 1000 and
    rounded up. *)
Definition rounds_up (rt : runtime) (start : Z * Z) : Prop :=
  let elapsed := nanoseconds (hrtime_clock rt) - nanoseconds start in
  let d := getRequestDuration rt start in
  1000 * (d - 1) < elapsed <= 1000 * d.

(** The rest of the pipeline as a program over the response: each call of
    [send] or [render] continues with the value the call returned.  A
    handler that stops early, or throws, is [Finished] at that point. *)
Inductive pipeline : Type :=
| Finished
| SendThen (body : jsval) (k : jsval -> pipeline)
| RenderThen (view options callback : jsval) (k : jsval -> pipeline)
| StatusThen (code : jsval) (k : pipeline).

Fixpoint run_pipeline (m : methods) (p : pipeline) (res : response)
  : response :=
  match p with
  | Finished => res
  | SendThen body k =>
      let (returned, res) := send m body res in
      run_pipeline m (k returned) res
  | RenderThen view options callback k =>
      let (returned, res) := render m view options callback res in
      run_pipeline m (k returned) res
  | StatusThen code k => run_pipeline m k (set_statusCode code res)
  end.

(** A pipeline that makes no use of what [send] and [render] return. *)
Fixpoint result_blind (p : pipeline) : Prop :=
  match p with
  | Finished => True
  | SendThen _ k =>
      (forall v, k v = k JUndefined) /\ result_blind (k JUndefined)
  | RenderThen _ _ _ k =>
      (forall v, k v = k JUndefined) /\ result_blind (k JUndefined)
  | StatusThen _ k => result_blind k
  end.

(** A sequence of calls as a pipeline. *)
Fixpoint of_calls (h : list call) : pipeline :=
  match h with
  | [] => Finished
  | CallSend body :: h' => SendThen body (fun _ => of_calls h')
  | CallRender view options callback :: h' =>
      RenderThen view options callback (fun _ => of_calls h')
  | CallStatus code :: h' => StatusThen code (of_calls h')
  end.

(** A host framework gives its methods as functions of the methods found on
    the response at the time of the call ([this.send], [this.render]).
    [original] is what [res.send.bind(res)] and [res.render.bind(res)] are
    once the wrappers over them sit in the slots of that response. *)
Definition bound_under_wrappers (F : methods -> methods) (original : methods)
  : Prop :=
  (forall body r,
      send original body r = send (F (wrapped original)) body r)
  /\ (forall view options callback r,
         render original view options callback r
         = render (F (wrapped original)) view options callback r).

(** [m] delivers what [m'] delivers, whatever the scratch field holds. *)
Definition simulates (m m' : methods) : Prop :=
  (forall body r r',
      same_delivery r r' ->
      same_delivery (snd (send m body r)) (snd (send m' body r')))
  /\ (forall view options callback r r',
         same_delivery r r' ->
         same_delivery (snd (render m view options callback r))
                       (snd (render m' view options callback r'))).

(** A framework whose delivery depends on the methods found on the response
    only through what these deliver, and whose [render] treats a function
    given as options as the callback. *)
Record framework_blind (F : methods -> methods) : Prop := {
  respects : forall m m', simulates m m' -> simulates (F m) (F m');
  normalises : forall m view f callback r,
    same_delivery (snd (render (F m) view (JFun f) callback r))
                  (snd (render (F m) view (JObj []) (JFun f) r))
}.

(** Methods that do nothing. *)
Definition no_methods : methods :=
  {| send := fun _ res => (JUndefined, res);
     render := fun _ _ _ res => (JUndefined, res) |}.

(** The methods of a framework bound to a response that carries the
    wrappers over them, and bound to a response as the framework made it;
    calls back into the response are followed [depth] deep. *)
Fixpoint under_wrappers (depth : nat) (F : methods -> methods) : methods :=
  match depth with
  | O => F no_methods
  | S n => F (wrapped (under_wrappers n F))
  end.

Fixpoint on_its_own (depth : nat) (F : methods -> methods) : methods :=
  match depth with
  | O => F no_methods
  | S n => F (on_its_own n F)
  end.

(** The scenario of a request whose handler sets status 200 and sends the
    object [{ok: true}], with the record the specification expects. *)
Definition ok_scenario (rt rt' : runtime) (apiKey projectId : jsval)
  (req : request) (original : methods) (res : response) : Prop :=
  forall inst w c rec,
    useApiHat apiKey projectId rt req original res
      (fun m =>
         run_handler m
           [CallStatus (JNum 200); CallSend (JObj [(lit "ok", JBool true)])])
    = Normal inst ->
    w_res w = i_res inst ->
    transmits (i_finish inst rt') w c ->
    carries rt' c rec ->
    request_body rec = JNull
    /\ response_body rec = JObj [(lit "ok", JBool true)]
    /\ response_code rec = JNum 200
    /\ exists q, response_size rec = JNum q /\ (0 < q)%Q.

Module Hosts.

(** The value a method of the sample framework returns: the response. *)
Definition this : jsval := JObj [(lit "response", JBool true)].

Definition write (text : jsstring) (res : response) : response :=
  {| __apiHat_body_response := __apiHat_body_response res;
     statusCode := statusCode res;
     headers :=
       (lit "content-length",
        JStr (Sample.number_toString (inject_Z (utf8_length text))))
       :: headers res;
     locals_error := locals_error res;
     wire := wire res ++ text |}.

Definition typed (content_type : jsstring) (res : response) : response :=
  {| __apiHat_body_response := __apiHat_body_response res;
     statusCode := statusCode res;
     headers := headers res ++ [(lit "content-type", JStr content_type)];
     locals_error := locals_error res;
     wire := wire res |}.

(** A framework in the manner of Express: [send] writes a string, and hands
    the JSON text of any other value to the [send] found on the response;
    [render] writes the rendered view through the [send] found on the
    response unless a callback takes it. *)
Definition serialising (slots : methods) : methods :=
  {| send := fun body res =>
       match body with
       | JStr text => (this, write text res)
       | JUndefined => (this, res)
       | JNull => (this, write [] res)
       | JFun _ => (this, res)
       | JBin (Buffer bytes) => (this, write bytes res)
       | _ =>
           send slots (JSON_stringify Sample.number_toString body)
             (typed (lit "application/json") res)
       end;
     render := fun view options callback res =>
       let done :=
         if jstype_eqb (typeof options) TFunction then options else callback in
       if jstype_eqb (typeof done) TFunction then (JUndefined, res)
       else
         let (_, res) :=
           send slots
             (JStr (lit "<h1>" ++ text_of view ++ lit "</h1>")) res in
         (JUndefined, res) |}.

(** The methods of the sample framework, bound to a response that carries
    the wrappers. *)
Definition express_like : methods := under_wrappers 1 serialising.

(** The runtime 9007200 seconds and one nanosecond after start. *)
Definition far : runtime :=
  {| Number_toString := Number_toString Sample.rt;
     String_toUpperCase := String_toUpperCase Sample.rt;
     Intl_timeZone := Intl_timeZone Sample.rt;
     os_platform := os_platform Sample.rt;
     os_release := os_release Sample.rt;
     os_arch := os_arch Sample.rt;
     process_version := process_version Sample.rt;
     Date_toISOString := Date_toISOString Sample.rt;
     hrtime_clock := (9007200, 1) |}.

(** A response whose captured body is a Buffer, without Content-Length. *)
Definition res_buffer : response :=
  {| __apiHat_body_response := JBin (Buffer [104; 105]%N);
     statusCode := JNum 304;
     headers := [];
     locals_error := JUndefined;
     wire := [] |}.

(** A request whose parsed body is the number 5. *)
Definition numeric_request : request :=
  {| req_body := JNum 5;
     req_headers := [(lit "content-type", JStr (lit "application/json"))];
     req_method := JStr (lit "POST");
     req_originalUrl := JStr (lit "/items");
     req_ip := JStr (lit "127.0.0.1");
     req_protocol := lit "http";
     req_httpVersion := lit "1.1" |}.

(** [res.render("index", fn); res.send("bye")] without use of what the
    calls return. *)
Definition plain : pipeline :=
  RenderThen (JStr (lit "index")) (JFun 0) JUndefined
    (fun _ => SendThen (JStr (lit "bye")) (fun _ => Finished)).

End Hosts.

(** ** The masking helper *)

(** C8: for every payload and every mapping of field names to masking rules,
    [maskSensitiveValues] returns the payload unchanged. *)
Theorem maskSensitiveValues_identity :
  forall payload fieldsToMaskMap : jsval,
    maskSensitiveValues payload fieldsToMaskMap = payload.
Proof. intros payload fieldsToMaskMap. reflexivity. Qed.

(** ** The request duration *)

Lemma process_hrtime_elapsed (rt : runtime) (start : Z * Z) :
  nanoseconds (process_hrtime rt (Some start))
  = nanoseconds (hrtime_clock rt) - nanoseconds start.
Proof.
  unfold process_hrtime, nanoseconds.
  destruct (snd (hrtime_clock rt) - snd start <? 0); cbn [fst snd]; lia.
Qed.

Lemma pow2_pos e : (0 < pow2 e)%Q.
Proof. apply Qpower_0_lt. reflexivity. Qed.

Lemma pow2_nat e : 0 <= e -> (pow2 e == inject_Z (2 ^ e))%Q.
Proof. intros H. unfold pow2. rewrite Zpower_Qpower by exact H. reflexivity. Qed.

Lemma pow2_add a b : (pow2 (a + b) == pow2 a * pow2 b)%Q.
Proof. unfold pow2. apply Qpower_plus. discriminate. Qed.

Lemma pow2_le a b : a <= b -> (pow2 a <= pow2 b)%Q.
Proof. intros H. unfold pow2. apply Qpower_le_compat_l; [exact H|]. discriminate. Qed.

Lemma pow2_lt a b : a < b -> (pow2 a < pow2 b)%Q.
Proof. intros H. unfold pow2. apply Qpower_lt_compat_l; [exact H|]. reflexivity. Qed.

Lemma pow2_lt_inv a b : (pow2 a < pow2 b)%Q -> a < b.
Proof.
  intros H. destruct (Z_lt_le_dec a b) as [L|L]; [exact L|].
  apply pow2_le in L. lra.
Qed.

Lemma Qmake_mult (n : Z) (d : positive) :
  ((n # d) * inject_Z (Zpos d) == inject_Z n)%Q.
Proof. unfold Qeq, Qmult, inject_Z. cbn. lia. Qed.

Lemma floor_log2_spec (x : Q) :
  (0 < x)%Q ->
  (pow2 (floor_log2 x) <= x /\ x < pow2 (floor_log2 x + 1))%Q.
Proof.
  intros Hx. destruct x as [n d]. unfold floor_log2. cbn [Qnum Qden].
  assert (Hn : 0 < n) by (unfold Qlt in Hx; cbn in Hx; lia).
  set (a := Z.log2 n). set (b := Z.log2 (Zpos d)).
  destruct (Z.log2_spec n Hn) as [La Ua].
  destruct (Z.log2_spec (Zpos d) eq_refl) as [Lb Ub].
  fold a b in La, Ua, Lb, Ub.
  assert (Ha : 0 <= a) by apply Z.log2_nonneg.
  assert (Hb : 0 <= b) by apply Z.log2_nonneg.
  assert (A1 : (pow2 a <= inject_Z n)%Q)
    by (rewrite pow2_nat by lia; rewrite <- Zle_Qle; exact La).
  assert (A2 : (inject_Z n < pow2 (a + 1))%Q)
    by (rewrite pow2_nat by lia; rewrite <- Zlt_Qlt; exact Ua).
  assert (B1 : (pow2 b <= inject_Z (Zpos d))%Q)
    by (rewrite pow2_nat by lia; rewrite <- Zle_Qle; exact Lb).
  assert (B2 : (inject_Z (Zpos d) < pow2 (b + 1))%Q)
    by (rewrite pow2_nat by lia; rewrite <- Zlt_Qlt; exact Ub).
  assert (E : (pow2 (a - b) * pow2 b == pow2 a)%Q).
  { rewrite <- pow2_add. replace (a - b + b) with a by lia. reflexivity. }
  assert (E1 : (pow2 (a - b + 1) == 2 * pow2 (a - b))%Q).
  { rewrite pow2_add. change (pow2 1) with 2%Q. ring. }
  assert (E2 : (2 * pow2 (a - b - 1) == pow2 (a - b))%Q).
  { replace (a - b) with (1 + (a - b - 1)) at 2 by lia.
    rewrite pow2_add. change (pow2 1) with 2%Q. ring. }
  rewrite (pow2_add a 1) in A2. rewrite (pow2_add b 1) in B2.
  change (pow2 1) with 2%Q in A2, B2.
  pose proof (Qmake_mult n d) as M.
  pose proof (pow2_pos (a - b)) as Pp.
  pose proof (pow2_pos b) as Pb.
  pose proof (pow2_pos (a - b - 1)) as Pm.
  destruct (Qle_bool (pow2 (a - b)) (n # d)) eqn:T.
  - apply Qle_bool_iff in T. split; [exact T|].
    rewrite E1.
    set (X := (n # d)%Q) in *. set (D := inject_Z (Zpos d)) in *.
    set (N := inject_Z n) in *. set (P := pow2 (a - b)) in *.
    set (B := pow2 b) in *. set (A := pow2 a) in *.
    clearbody X D N P B A.
    destruct (Qlt_le_dec X (2 * P)) as [L|L]; [exact L|exfalso].
    assert (2 * P * D <= X * D)%Q by (apply Qmult_le_compat_r; lra).
    assert (2 * P * B <= 2 * P * D)%Q by (apply Qmult_le_l; lra).
    nra.
  - assert (T' : ~ (pow2 (a - b) <= n # d)%Q)
      by (intros C; apply Qle_bool_iff in C; congruence).
    replace (a - b - 1 + 1) with (a - b) by lia.
    set (X := (n # d)%Q) in *. set (D := inject_Z (Zpos d)) in *.
    set (N := inject_Z n) in *. set (P := pow2 (a - b)) in *.
    set (B := pow2 b) in *. set (A := pow2 a) in *.
    set (P' := pow2 (a - b - 1)) in *.
    clearbody X D N P B A P'.
    split; [|lra].
    destruct (Qlt_le_dec X P') as [L|L]; [exfalso|exact L].
    assert (X * D <= P' * D)%Q by (apply Qmult_le_compat_r; lra).
    assert (P' * D <= P' * (2 * B))%Q by (apply Qmult_le_l; lra).
    nra.
Qed.

Lemma nearest_even_close (y : Q) :
  (- (1 # 2) <= inject_Z (nearest_even y) - y <= 1 # 2)%Q.
Proof.
  unfold nearest_even.
  pose proof (Qfloor_le y) as L. pose proof (Qlt_floor y) as U.
  rewrite inject_Z_plus in U. change (inject_Z 1) with 1%Q in U.
  destruct (Qcompare (y - inject_Z (Qfloor y)) (1 # 2)) eqn:C.
  - apply (proj2 (Qeq_alt _ _)) in C. destruct (Z.even (Qfloor y));
      rewrite ?inject_Z_plus; change (inject_Z 1) with 1%Q; lra.
  - apply (proj2 (Qlt_alt _ _)) in C. lra.
  - apply (proj2 (Qgt_alt _ _)) in C. rewrite inject_Z_plus. change (inject_Z 1) with 1%Q. lra.
Qed.

Lemma nearest_even_Z (y : Q) (z : Z) :
  (y == inject_Z z)%Q -> nearest_even y = z.
Proof.
  intros H. unfold nearest_even.
  assert (F : Qfloor y = z) by (rewrite H; apply Qfloor_Z).
  rewrite F.
  assert (C : Qcompare (y - inject_Z z) (1 # 2) = Lt).
  { apply (proj1 (Qlt_alt _ _)). lra. }
  rewrite C. reflexivity.
Qed.

Lemma round_positive_close (x : Q) :
  (0 < x)%Q ->
  (Qabs (round_positive x - x) <= pow2 (floor_log2 x - 53))%Q.
Proof.
  intros Hx. unfold round_positive.
  set (e := floor_log2 x - 52).
  replace (floor_log2 x - 53) with (e + -1) by (unfold e; lia).
  rewrite pow2_add. change (pow2 (-1)) with (1 # 2)%Q.
  pose proof (pow2_pos e) as Pe.
  pose proof (nearest_even_close (x / pow2 e)) as [L U].
  set (m := inject_Z (nearest_even (x / pow2 e))) in *.
  assert (E : (x / pow2 e * pow2 e == x)%Q) by (field; lra).
  set (y := (x / pow2 e)%Q) in *. set (p := pow2 e) in *.
  clearbody m y p.
  apply Qabs_Qle_condition. split; nra.
Qed.

Lemma round_positive_exact (x : Q) (z : Z) :
  (x == inject_Z z)%Q -> 0 < z < 2 ^ 53 ->
  (round_positive x == inject_Z z)%Q.
Proof.
  intros H [Hz Hu].
  assert (Hx : (0 < x)%Q).
  { rewrite H. rewrite Zlt_Qlt in Hz. exact Hz. }
  destruct (floor_log2_spec x Hx) as [L _].
  assert (Hl : floor_log2 x < 53).
  { apply pow2_lt_inv. eapply Qle_lt_trans; [exact L|].
    rewrite H, (pow2_nat 53) by lia. rewrite <- Zlt_Qlt. exact Hu. }
  unfold round_positive.
  set (e := floor_log2 x - 52). assert (He : e <= 0) by (unfold e; lia).
  assert (P : (pow2 e * inject_Z (2 ^ (- e)) == 1)%Q).
  { rewrite <- pow2_nat by lia. rewrite <- pow2_add.
    replace (e + - e) with 0 by lia. reflexivity. }
  pose proof (pow2_pos e) as Pe.
  assert (Y : (x / pow2 e == inject_Z (z * 2 ^ (- e)))%Q).
  { rewrite inject_Z_mult, H.
    set (p := pow2 e) in *. set (q := inject_Z (2 ^ (- e))) in *.
    clearbody p q. field_simplify_eq; [nra | lra]. }
  rewrite (nearest_even_Z _ _ Y). rewrite inject_Z_mult.
  set (p := pow2 e) in *. set (q := inject_Z (2 ^ (- e))) in *.
  clearbody p q. nra.
Qed.

Lemma to_double_exact (x : Q) (z : Z) :
  (x == inject_Z z)%Q -> 0 <= z < 2 ^ 53 -> (to_double x == inject_Z z)%Q.
Proof.
  intros H [Hz Hu]. unfold to_double.
  destruct (Z.eq_dec z 0) as [-> | N].
  - assert (C : Qcompare x 0 = Eq) by (apply (proj1 (Qeq_alt _ _)); exact H).
    rewrite C. reflexivity.
  - assert (C : Qcompare x 0 = Gt).
    { apply (proj1 (Qgt_alt _ _)). rewrite H. change 0%Q with (inject_Z 0).
      rewrite <- Zlt_Qlt. lia. }
    rewrite C. apply round_positive_exact; [exact H | lia].
Qed.

Lemma to_double_close (x : Q) :
  (0 < x)%Q -> (x < pow2 44)%Q ->
  (- (1 # 1024) <= to_double x - x <= 1 # 1024)%Q.
Proof.
  intros Hx Hu. unfold to_double.
  assert (C : Qcompare x 0 = Gt) by (apply (proj1 (Qgt_alt _ _)); exact Hx).
  rewrite C.
  destruct (floor_log2_spec x Hx) as [L _].
  assert (Hl : floor_log2 x < 44)
    by (apply pow2_lt_inv; eapply Qle_lt_trans; [exact L | exact Hu]).
  pose proof (round_positive_close x Hx) as E.
  assert (B : (pow2 (floor_log2 x - 53) <= 1 # 1024)%Q)
    by (change (1 # 1024)%Q with (pow2 (-10)); apply pow2_le; lia).
  apply Qabs_Qle_condition in E. lra.
Qed.

Lemma Qceiling_unique (y : Q) (d : Z) :
  (inject_Z (d - 1) < y)%Q -> (y <= inject_Z d)%Q -> Qceiling y = d.
Proof.
  intros L U.
  pose proof (Qle_ceiling y) as C1. pose proof (Qceiling_lt y) as C2.
  assert (inject_Z (d - 1) < inject_Z (Qceiling y))%Q by lra.
  assert (inject_Z (Qceiling y - 1) < inject_Z d)%Q by lra.
  rewrite <- Zlt_Qlt in *. lia.
Qed.

Lemma ceil_of_rounded_quotient (x : Q) (n : Z) :
  (x == inject_Z n / inject_Z 1000)%Q -> 0 <= n < 2 ^ 53 ->
  Qceiling (to_double x) = - ((- n) / 1000).
Proof.
  intros H [Hn Hu].
  pose proof (Z.div_mod n 1000 ltac:(lia)) as Dm.
  pose proof (Z.mod_pos_bound n 1000 ltac:(lia)) as Mb.
  set (q := n / 1000) in *. set (r := n mod 1000) in *.
  assert (Hq : 0 <= q) by (apply Z.div_pos; lia).
  assert (X : (x == inject_Z q + inject_Z r / inject_Z 1000)%Q).
  { rewrite H, Dm, inject_Z_plus, inject_Z_mult. field. }
  destruct (Z.eq_dec r 0) as [R0 | R0].
  - assert (Xq : (x == inject_Z q)%Q).
    { rewrite X, R0. field. }
    rewrite (Qceiling_comp _ _ (to_double_exact x q Xq ltac:(lia))).
    rewrite Qceiling_Z.
    pose proof (Z.div_mod (- n) 1000 ltac:(lia)).
    pose proof (Z.mod_pos_bound (- n) 1000 ltac:(lia)). lia.
  - assert (R1 : (inject_Z 1 <= inject_Z r)%Q) by (rewrite <- Zle_Qle; lia).
    assert (R2 : (inject_Z r <= inject_Z 999)%Q) by (rewrite <- Zle_Qle; lia).
    assert (Q0 : (inject_Z 0 <= inject_Z q)%Q) by (rewrite <- Zle_Qle; lia).
    assert (Nu : (inject_Z n < inject_Z (2 ^ 53))%Q)
      by (rewrite <- Zlt_Qlt; lia).
    assert (N1 : (inject_Z 1 <= inject_Z n)%Q) by (rewrite <- Zle_Qle; lia).
    assert (Xn : (x * 1000 == inject_Z n)%Q).
    { rewrite H. field. }
    change (inject_Z 1) with 1%Q in *. change (inject_Z 0) with 0%Q in *.
    change (inject_Z 999) with 999%Q in *.
    change (inject_Z (2 ^ 53)) with 9007199254740992%Q in *.
    assert (Xr : (x * 1000 == inject_Z q * 1000 + inject_Z r)%Q).
    { rewrite X. field. }
    assert (Hx : (0 < x)%Q) by lra.
    assert (Hx44 : (x < pow2 44)%Q).
    { change (pow2 44) with 17592186044416%Q. lra. }
    pose proof (to_double_close x Hx Hx44) as [Cl Cu].
    assert (G : Qceiling (to_double x) = q + 1).
    { apply Qceiling_unique.
      - replace (q + 1 - 1) with q by lia. lra.
      - rewrite inject_Z_plus. change (inject_Z 1) with 1%Q. lra. }
    rewrite G.
    pose proof (Z.div_mod (- n) 1000 ltac:(lia)).
    pose proof (Z.mod_pos_bound (- n) 1000 ltac:(lia)). lia.
Qed.

Lemma process_hrtime_reading (rt : runtime) (start : Z * Z) :
  hrtime_reading (hrtime_clock rt) -> hrtime_reading start ->
  0 <= snd (process_hrtime rt (Some start)) < 1000000000.
Proof.
  unfold hrtime_reading, process_hrtime. intros Hc Hs.
  destruct (snd (hrtime_clock rt) - snd start <? 0) eqn:E; cbn [snd].
  - apply Z.ltb_lt in E. lia.
  - apply Z.ltb_ge in E. lia.
Qed.

(** Within the precision of doubles the three operations of
    [getRequestDuration] lose nothing that [Math.ceil] would not restore. *)
Lemma getRequestDuration_exact (rt : runtime) (start : Z * Z) :
  within_double_precision rt start ->
  getRequestDuration rt start
  = - ((- (nanoseconds (hrtime_clock rt) - nanoseconds start)) / 1000).
Proof.
  intros (Hc & Hs & He).
  pose proof (process_hrtime_elapsed rt start) as El.
  pose proof (process_hrtime_reading rt start Hc Hs) as Hn.
  unfold getRequestDuration. cbv zeta.
  set (diff := process_hrtime rt (Some start)) in *.
  unfold nanoseconds in El at 1. rewrite <- El in He. rewrite <- El.
  assert (H0 : 0 <= fst diff) by lia.
  assert (Hm : (double_mul (inject_Z (fst diff)) (inject_Z 1000000000)
                == inject_Z (fst diff * 1000000000))%Q).
  { apply to_double_exact; [|lia]. rewrite inject_Z_mult. reflexivity. }
  assert (Ha : (double_add
                  (double_mul (inject_Z (fst diff)) (inject_Z 1000000000))
                  (inject_Z (snd diff))
                == inject_Z (fst diff * 1000000000 + snd diff))%Q).
  { apply to_double_exact; [|lia]. rewrite Hm, inject_Z_plus. reflexivity. }
  unfold Math_ceil, double_div.
  apply ceil_of_rounded_quotient; [|lia].
  rewrite Ha. reflexivity.
Qed.

Lemma getRequestDuration_bounds (rt : runtime) (start : Z * Z) :
  within_double_precision rt start ->
  let elapsed := nanoseconds (hrtime_clock rt) - nanoseconds start in
  1000 * (getRequestDuration rt start - 1) < elapsed
  <= 1000 * getRequestDuration rt start.
Proof.
  intros W. cbv zeta. rewrite (getRequestDuration_exact rt start W).
  set (x := nanoseconds (hrtime_clock rt) - nanoseconds start).
  pose proof (Z.div_mod (- x) 1000 ltac:(lia)) as E.
  pose proof (Z.mod_pos_bound (- x) 1000 ltac:(lia)) as B.
  lia.
Qed.

(** ** When the reporter reaches the transmission *)

Lemma bodyString_of_serialized (rt : runtime) (body : jsval) (s : jsstring) :
  serialized_body rt body = Some s -> bodyString rt body = JStr s.
Proof.
  destruct body as [| |b|q|t|items|props|f|data]; cbn; intros H;
    try discriminate; try (injection H as <-; reflexivity).
  - injection H as <-. destruct t; reflexivity.
Qed.

Lemma bodyString_measurable (rt : runtime) (body : jsval) :
  measurable body = true -> exists s, bodyString rt body = JStr s.
Proof.
  unfold measurable, stringish, bodyString, or_else.
  destruct body as [| |b|q|t|items|props|f|data]; cbn; intros H;
    try discriminate; try (eexists; reflexivity).
  - destruct b; [discriminate | eexists; reflexivity].
  - destruct (Qeq_bool q 0); [eexists; reflexivity | discriminate].
  - destruct t; eexists; reflexivity.
Qed.

Lemma bodyString_unmeasurable (rt : runtime) (body : jsval) :
  measurable body = false ->
  Buffer_byteLength (bodyString rt body) = Throw (TypeError "ERR_INVALID_ARG_TYPE").
Proof.
  unfold measurable, stringish, bodyString, or_else.
  destruct body as [| |b|q|t|items|props|f|data]; cbn; intros H;
    try discriminate; try reflexivity.
  - destruct b; [reflexivity | discriminate].
  - destruct (Qeq_bool q 0); [discriminate | reflexivity].
Qed.

(** The call issued and the record it carries, field by field. *)
Lemma sendPayloadToApiHat_run (rt : runtime) (apiKey projectId : jsval)
  (rqd : requestData) (rsd : responseData) (start : Z * Z)
  (error mask : jsval) (w : world) (s1 s2 : jsstring) :
  bodyString rt (rq_body rqd) = JStr s1 ->
  bodyString rt (rs_body rsd) = JStr s2 ->
  exists c rec,
    transmits (sendPayloadToApiHat rt apiKey projectId rqd rsd start error mask) w c
    /\ carries rt c rec
    /\ fetch_url c = lit "https://api.apihat.com/api/requests"
    /\ fetch_method c = lit "POST"
    /\ fetch_headers c = [(lit "Content-Type", JStr (lit "application/json"));
                          (lit "x-api-key", apiKey)]
    /\ get (lit "api_key") rec = apiKey
    /\ get (lit "project_id") rec = projectId
    /\ get (lit "version") rec = JStr (lit "1.0.0")
    /\ get (lit "sdk") rec = JStr (lit "node")
    /\ request_body rec
       = (if not_undefined (rq_body rqd) then rq_body rqd else JNull)
    /\ request_size rec = JNum (inject_Z (utf8_length s1) / inject_Z 1024)
    /\ response_body rec
       = (if not_undefined (rs_body rsd) then rs_body rsd else JNull)
    /\ response_code rec = rs_statusCode rsd
    /\ response_size rec = JNum (inject_Z (utf8_length s2) / inject_Z 1024)
    /\ response_load_time rec = JNum (inject_Z (getRequestDuration rt start))
    /\ record_errors rec = JArr (errors_of error).
Proof.
  intros H1 H2.
  unfold transmits, carries, sendPayloadToApiHat, bind, lift.
  rewrite H1, H2. cbn [Buffer_byteLength].
  unfold fetch, add_fetch, dataToSend.
  eexists. eexists.
  split; [reflexivity|].
  split; [reflexivity|].
  repeat split.
Qed.

Lemma sendPayloadToApiHat_throws (rt : runtime) (apiKey projectId : jsval)
  (rqd : requestData) (rsd : responseData) (start : Z * Z)
  (error mask : jsval) (w : world) :
  measurable (rq_body rqd) && measurable (rs_body rsd) = false ->
  sendPayloadToApiHat rt apiKey projectId rqd rsd start error mask w
  = (Throw (TypeError "ERR_INVALID_ARG_TYPE"), w).
Proof.
  intros H. unfold sendPayloadToApiHat, bind, lift.
  destruct (measurable (rq_body rqd)) eqn:E1.
  - destruct (bodyString_measurable rt _ E1) as [s1 ->].
    cbn in H. rewrite (bodyString_unmeasurable rt _ H). reflexivity.
  - rewrite (bodyString_unmeasurable rt _ E1). reflexivity.
Qed.

Lemma sendPayloadToApiHat_keeps_response (rt : runtime) (apiKey projectId : jsval)
  (rqd : requestData) (rsd : responseData) (start : Z * Z)
  (error mask : jsval) (w : world) :
  w_res (snd (sendPayloadToApiHat rt apiKey projectId rqd rsd start error mask w))
  = w_res w.
Proof.
  destruct (measurable (rq_body rqd) && measurable (rs_body rsd)) eqn:E.
  - apply andb_true_iff in E as [E1 E2].
    destruct (bodyString_measurable rt _ E1) as [s1 H1].
    destruct (bodyString_measurable rt _ E2) as [s2 H2].
    destruct (sendPayloadToApiHat_run rt apiKey projectId rqd rsd start
                error mask w s1 s2 H1 H2) as (c & rec & T & _).
    unfold transmits in T. rewrite T. reflexivity.
  - rewrite sendPayloadToApiHat_throws by exact E. reflexivity.
Qed.

Lemma responseData_of_ready (res : response) :
  truthy (res_get (lit "Content-Length") res)
  || stringish (__apiHat_body_response res) = true ->
  exists len,
    responseData_of res
    = Normal {| rs_body := __apiHat_body_response res;
                rs_headers := res_getHeaders res;
                rs_statusCode := statusCode res;
                rs_length := len |}.
Proof.
  unfold responseData_of. intros H.
  destruct (truthy (res_get (lit "Content-Length") res)).
  - eexists. reflexivity.
  - cbn in H. unfold stringish, or_else in *.
    destruct (__apiHat_body_response res) as [| |b|q|t|items|props|f|data];
      cbn in *; try discriminate; try (eexists; reflexivity).
    + destruct b; [discriminate | eexists; reflexivity].
    + destruct (Qeq_bool q 0); [eexists; reflexivity | discriminate].
    + destruct t; eexists; reflexivity.
Qed.

Lemma responseData_of_accepts (res : response) :
  truthy (res_get (lit "Content-Length") res)
  || byteLength_accepts (or_else (__apiHat_body_response res) (JStr []))
  = true ->
  exists len,
    responseData_of res
    = Normal {| rs_body := __apiHat_body_response res;
                rs_headers := res_getHeaders res;
                rs_statusCode := statusCode res;
                rs_length := len |}.
Proof.
  unfold responseData_of. intros H.
  destruct (truthy (res_get (lit "Content-Length") res)).
  - eexists. reflexivity.
  - cbn in H.
    destruct (or_else (__apiHat_body_response res) (JStr []));
      try discriminate H; eexists; reflexivity.
Qed.

Lemma responseData_of_unready (res : response) :
  truthy (res_get (lit "Content-Length") res)
  || byteLength_accepts (or_else (__apiHat_body_response res) (JStr []))
  = false ->
  responseData_of res = Throw (TypeError "ERR_INVALID_ARG_TYPE").
Proof.
  unfold responseData_of. intros H.
  apply orb_false_iff in H as [-> H].
  destruct (or_else (__apiHat_body_response res) (JStr []));
    try discriminate H; reflexivity.
Qed.

Lemma stringish_accepted (v : jsval) :
  stringish v = true -> byteLength_accepts (or_else v (JStr [])) = true.
Proof.
  unfold stringish, or_else.
  destruct v as [| |b|q|t|items|props|f|data]; cbn; intros H;
    try discriminate; try reflexivity.
  - destruct b; [discriminate | reflexivity].
  - destruct (Qeq_bool q 0); [reflexivity | discriminate].
  - destruct t; reflexivity.
Qed.

Lemma finish_ready_listener_ready (req : request) (res : response) :
  finish_ready req res = true -> listener_ready req res = true.
Proof.
  unfold finish_ready, listener_ready. intros H.
  apply andb_true_iff in H as [H M2].
  apply andb_true_iff in H as [H M1].
  rewrite M1, M2, !andb_true_r.
  apply orb_true_iff in H as [H | H].
  - rewrite H. reflexivity.
  - rewrite (stringish_accepted _ H). apply orb_true_r.
Qed.

(** From a ready state the listener is one call of the reporter on the
    captured body and the status of the response. *)
Lemma on_finish_run (rt : runtime) (apiKey projectId : jsval) (req : request)
  (start : Z * Z) (requestSize : Z) (w : world) :
  finish_ready req (w_res w) = true ->
  exists rsd,
    rs_body rsd = __apiHat_body_response (w_res w)
    /\ rs_statusCode rsd = statusCode (w_res w)
    /\ measurable (rq_body (requestData_of req requestSize)) = true
    /\ measurable (rs_body rsd) = true
    /\ on_finish rt apiKey projectId req start requestSize w
       = sendPayloadToApiHat rt apiKey projectId
           (requestData_of req requestSize) rsd start
           (or_else (locals_error (w_res w)) JNull) (JObj []) w.
Proof.
  unfold finish_ready. intros H.
  apply andb_true_iff in H as [H H3].
  apply andb_true_iff in H as [H1 H2].
  destruct (responseData_of_ready _ H1) as [len E].
  eexists. repeat split.
  5: { unfold on_finish, bind, the_response, lift. rewrite E. reflexivity. }
  all: cbn; assumption || reflexivity.
Qed.

Lemma on_finish_throws (rt : runtime) (apiKey projectId : jsval) (req : request)
  (start : Z * Z) (requestSize : Z) (w : world) :
  listener_ready req (w_res w) = false ->
  on_finish rt apiKey projectId req start requestSize w
  = (Throw (TypeError "ERR_INVALID_ARG_TYPE"), w).
Proof.
  unfold listener_ready. intros H.
  unfold on_finish, bind, the_response, lift.
  destruct (truthy (res_get (lit "Content-Length") (w_res w))
            || byteLength_accepts
                 (or_else (__apiHat_body_response (w_res w)) (JStr [])))
    eqn:E.
  - destruct (responseData_of_accepts _ E) as [len ->].
    apply sendPayloadToApiHat_throws. exact H.
  - rewrite (responseData_of_unready _ E). reflexivity.
Qed.

(** ** The Telemetry Record *)

(** C4: whenever the request and response bodies are objects, strings or
    absent, the reporter transmits a record whose [request.size] and
    [response.size] are the UTF-8 byte length of the serialized body (the
    JSON text of an object, the empty string for an absent body) divided by
    1024. *)
Theorem sizes_in_kilobytes :
  forall (rt : runtime) (apiKey projectId : jsval) (rqd : requestData)
         (rsd : responseData) (start : Z * Z) (error mask : jsval) (w : world)
         (s1 s2 : jsstring),
    serialized_body rt (rq_body rqd) = Some s1 ->
    serialized_body rt (rs_body rsd) = Some s2 ->
    exists c rec,
      transmits (sendPayloadToApiHat rt apiKey projectId rqd rsd start error mask) w c
      /\ carries rt c rec
      /\ request_size rec = JNum (inject_Z (utf8_length s1) / inject_Z 1024)
      /\ response_size rec = JNum (inject_Z (utf8_length s2) / inject_Z 1024).
Proof.
  intros rt apiKey projectId rqd rsd start error mask w s1 s2 H1 H2.
  apply bodyString_of_serialized in H1, H2.
  destruct (sendPayloadToApiHat_run rt apiKey projectId rqd rsd start
              error mask w s1 s2 H1 H2) as (c & rec & T & C & F).
  exists c, rec. intuition.
Qed.

Lemma sizes_in_kilobytes_witness :
  serialized_body Sample.rt (rq_body Sample.rqd) = Some []
  /\ serialized_body Sample.rt (rs_body Sample.rsd) = Some Sample.ok_text
  /\ exists c rec,
       transmits (sendPayloadToApiHat Sample.rt Sample.apiKey Sample.projectId
                    Sample.rqd Sample.rsd (12, 0) JNull (JObj []))
                 (Sample.world_of Sample.res0) c
       /\ carries Sample.rt c rec
       /\ request_size rec = JNum (inject_Z 0 / inject_Z 1024)
       /\ response_size rec = JNum (inject_Z 11 / inject_Z 1024).
Proof.
  split; [reflexivity|]. split; [reflexivity|].
  apply (sizes_in_kilobytes Sample.rt Sample.apiKey Sample.projectId
           Sample.rqd Sample.rsd (12, 0) JNull (JObj [])
           (Sample.world_of Sample.res0) [] Sample.ok_text);
    reflexivity.
Defined.

(** C5: when the listener reaches the transmission, the record's error list
    holds exactly one descriptor, with source [onException], type
    [UNHANDLED_EXCEPTION] and the error's message, file and line, if
    [res.locals.error] is truthy (as every error object is), and is empty if
    it is falsy (as when nothing was attached). *)
Theorem errors_from_locals :
  forall (rt : runtime) (apiKey projectId : jsval) (req : request)
         (start : Z * Z) (requestSize : Z) (w : world),
    finish_ready req (w_res w) = true ->
    exists c rec,
      transmits (on_finish rt apiKey projectId req start requestSize) w c
      /\ carries rt c rec
      /\ record_errors rec
         = JArr (if truthy (locals_error (w_res w))
                 then [JObj [(lit "source", JStr (lit "onException"));
                             (lit "type", JStr (lit "UNHANDLED_EXCEPTION"));
                             (lit "message",
                                get (lit "message") (locals_error (w_res w)));
                             (lit "file",
                                get (lit "fileName") (locals_error (w_res w)));
                             (lit "line",
                                get (lit "lineNumber") (locals_error (w_res w)))]]
                 else []).
Proof.
  intros rt apiKey projectId req start requestSize w R.
  destruct (on_finish_run rt apiKey projectId req start requestSize w R)
    as (rsd & _ & _ & M1 & M2 & E).
  destruct (bodyString_measurable rt _ M1) as [s1 H1].
  destruct (bodyString_measurable rt _ M2) as [s2 H2].
  destruct (sendPayloadToApiHat_run rt apiKey projectId _ rsd start
              (or_else (locals_error (w_res w)) JNull) (JObj []) w s1 s2 H1 H2)
    as (c & rec & T & C & F).
  exists c, rec. unfold transmits in *. rewrite E.
  split; [exact T|]. split; [exact C|].
  decompose [and] F. 
  match goal with H : record_errors rec = _ |- _ => rewrite H end.
  unfold errors_of, or_else.
  destruct (truthy (locals_error (w_res w))) eqn:Et.
  - rewrite Et. reflexivity.
  - reflexivity.
Qed.

Lemma errors_from_locals_witness :
  finish_ready Sample.get_request (w_res (Sample.world_of Sample.res_failed)) = true
  /\ exists c rec,
       transmits (on_finish Sample.rt Sample.apiKey Sample.projectId
                    Sample.get_request (12, 0) 2)
                 (Sample.world_of Sample.res_failed) c
       /\ carries Sample.rt c rec
       /\ record_errors rec
          = JArr [JObj [(lit "source", JStr (lit "onException"));
                        (lit "type", JStr (lit "UNHANDLED_EXCEPTION"));
                        (lit "message", JStr (lit "boom"));
                        (lit "file", JUndefined);
                        (lit "line", JNum 42)]].
Proof.
  split; [reflexivity|].
  apply (errors_from_locals Sample.rt Sample.apiKey Sample.projectId
           Sample.get_request (12, 0) 2 (Sample.world_of Sample.res_failed)).
  reflexivity.
Defined.

(** C6: whenever the reporter can take the size of both bodies, it issues
    one POST to the fixed collector endpoint, with the two headers
    [Content-Type: application/json] and [x-api-key] = the api key, and as
    body the JSON text of an array holding exactly one element, the
    Telemetry Record: the api key, the project id, the version, the runtime
    tag, the server, language, request and response descriptors and the
    error list, each field with the value it has in the request data, the
    response data and the runtime. *)
Theorem one_record_posted :
  forall (rt : runtime) (apiKey projectId : jsval) (rqd : requestData)
         (rsd : responseData) (start : Z * Z) (error mask : jsval) (w : world),
    measurable (rq_body rqd) = true ->
    measurable (rs_body rsd) = true ->
    exists c rec s1 s2,
      transmits (sendPayloadToApiHat rt apiKey projectId rqd rsd start error mask) w c
      /\ fetch_url c = lit "https://api.apihat.com/api/requests"
      /\ fetch_method c = lit "POST"
      /\ fetch_headers c
         = [(lit "Content-Type", JStr (lit "application/json"));
            (lit "x-api-key", apiKey)]
      /\ fetch_body c = JSON_stringify (Number_toString rt) (JArr [rec])
      /\ keys rec
         = [lit "api_key"; lit "project_id"; lit "version"; lit "sdk";
            lit "data"]
      /\ keys (get (lit "data") rec)
         = [lit "server"; lit "language"; lit "request"; lit "response";
            lit "errors"]
      /\ get (lit "api_key") rec = apiKey
      /\ get (lit "project_id") rec = projectId
      /\ get (lit "version") rec = JStr (lit "1.0.0")
      /\ get (lit "sdk") rec = JStr (lit "node")
      /\ server_timezone rec = Intl_timeZone rt
      /\ server_os_name rec = os_platform rt
      /\ server_os_release rec = os_release rt
      /\ server_os_architecture rec = os_arch rt
      /\ server_software rec = JNull
      /\ server_signature rec = JNull
      /\ server_protocol rec
         = JStr (String_toUpperCase rt (rq_protocol rqd)
                 ++ lit "/" ++ rq_httpVersion rqd)
      /\ language_name rec = JStr (lit "node")
      /\ language_version rec = process_version rt
      /\ request_timestamp rec
         = JStr (substr0 19 (replace_first 84 32 (Date_toISOString rt)))
      /\ request_ip rec = rq_ip rqd
      /\ request_url rec = rq_url rqd
      /\ request_user_agent rec = lookup (lit "user-agent") (rq_headers rqd)
      /\ request_method rec = rq_method rqd
      /\ request_headers rec = JObj (rq_headers rqd)
      /\ request_body rec
         = (if not_undefined (rq_body rqd) then rq_body rqd else JNull)
      /\ bodyString rt (rq_body rqd) = JStr s1
      /\ request_size rec = JNum (inject_Z (utf8_length s1) / inject_Z 1024)
      /\ response_headers rec = rs_headers rsd
      /\ response_code rec = rs_statusCode rsd
      /\ bodyString rt (rs_body rsd) = JStr s2
      /\ response_size rec = JNum (inject_Z (utf8_length s2) / inject_Z 1024)
      /\ response_load_time rec = JNum (inject_Z (getRequestDuration rt start))
      /\ response_body rec
         = (if not_undefined (rs_body rsd) then rs_body rsd else JNull)
      /\ record_errors rec = JArr (errors_of error).
Proof.
  intros rt apiKey projectId rqd rsd start error mask w M1 M2.
  destruct (bodyString_measurable rt _ M1) as [s1 H1].
  destruct (bodyString_measurable rt _ M2) as [s2 H2].
  eexists. eexists. exists s1, s2.
  split.
  { unfold transmits, sendPayloadToApiHat, bind, lift.
    rewrite H1, H2. reflexivity. }
  unfold dataToSend.
  repeat (split; [first [reflexivity | assumption]|]).
  reflexivity.
Qed.

Lemma one_record_posted_witness :
  (measurable (rq_body Sample.rqd) = true
   /\ measurable (rs_body Sample.rsd) = true)
  /\ exists c rec,
       transmits (sendPayloadToApiHat Sample.rt Sample.apiKey Sample.projectId
                    Sample.rqd Sample.rsd (12, 0) JNull (JObj []))
                 (Sample.world_of Sample.res0) c
       /\ fetch_url c = lit "https://api.apihat.com/api/requests"
       /\ fetch_method c = lit "POST"
       /\ fetch_headers c
          = [(lit "Content-Type", JStr (lit "application/json"));
             (lit "x-api-key", Sample.apiKey)]
       /\ fetch_body c
          = JSON_stringify (Number_toString Sample.rt) (JArr [rec])
       /\ get (lit "api_key") rec = Sample.apiKey
       /\ server_protocol rec = JStr (lit "HTTP/1.1")
       /\ request_timestamp rec = JStr (lit "2024-05-06 07:08:09")
       /\ request_method rec = JStr (lit "GET")
       /\ response_code rec = JNum 200
       /\ response_size rec = JNum (inject_Z 11 / inject_Z 1024)
       /\ record_errors rec = JArr [].
Proof.
  split; [split; reflexivity|].
  destruct (one_record_posted Sample.rt Sample.apiKey Sample.projectId
              Sample.rqd Sample.rsd (12, 0) JNull (JObj [])
              (Sample.world_of Sample.res0) eq_refl eq_refl)
    as (c & rec & s1 & s2 & T & U & P & Hd & Bd & _ & _ & K & _ & _ & _ & _
        & _ & _ & _ & _ & _ & Pr & _ & _ & Ts & _ & _ & _ & Me & _ & _ & _ & _
        & _ & Cd & B2 & Sz & _ & _ & Er).
  exists c, rec.
  split; [exact T|]. split; [exact U|]. split; [exact P|].
  split; [exact Hd|]. split; [exact Bd|]. split; [exact K|].
  split; [exact Pr|]. split; [exact Ts|]. split; [exact Me|].
  split; [exact Cd|].
  split; [|exact Er].
  rewrite Sz. injection B2 as <-. reflexivity.
Defined.

(** C10: every transmitted record has version ["1.0.0"] and sdk ["node"],
    whatever the request, the response and the credentials are. *)
Theorem version_and_sdk_constant :
  forall (rt : runtime) (apiKey projectId : jsval) (rqd : requestData)
         (rsd : responseData) (start : Z * Z) (error mask : jsval) (w : world),
    measurable (rq_body rqd) = true ->
    measurable (rs_body rsd) = true ->
    exists c rec,
      transmits (sendPayloadToApiHat rt apiKey projectId rqd rsd start error mask) w c
      /\ carries rt c rec
      /\ get (lit "version") rec = JStr (lit "1.0.0")
      /\ get (lit "sdk") rec = JStr (lit "node").
Proof.
  intros rt apiKey projectId rqd rsd start error mask w M1 M2.
  destruct (bodyString_measurable rt _ M1) as [s1 H1].
  destruct (bodyString_measurable rt _ M2) as [s2 H2].
  destruct (sendPayloadToApiHat_run rt apiKey projectId rqd rsd start
              error mask w s1 s2 H1 H2)
    as (c & rec & T & C & _ & _ & _ & _ & _ & V & S & _).
  exists c, rec. auto.
Qed.

Lemma version_and_sdk_constant_witness :
  measurable (rq_body Sample.rqd) = true
  /\ measurable (rs_body Sample.rsd) = true
  /\ exists c rec,
       transmits (sendPayloadToApiHat Sample.rt (JNum 5) JNull
                    Sample.rqd Sample.rsd (3, 14) Sample.boom (JObj []))
                 (Sample.world_of Sample.res_failed) c
       /\ carries Sample.rt c rec
       /\ get (lit "version") rec = JStr (lit "1.0.0")
       /\ get (lit "sdk") rec = JStr (lit "node").
Proof.
  split; [reflexivity|]. split; [reflexivity|].
  apply (version_and_sdk_constant Sample.rt (JNum 5) JNull
           Sample.rqd Sample.rsd (3, 14) Sample.boom (JObj [])
           (Sample.world_of Sample.res_failed));
    reflexivity.
Defined.

(** C7, as the code has it: when the two clock readings are well formed and
    less than 2^53 nanoseconds (about 104 days) apart, the request duration,
    and with it the record's [load_time], is the elapsed nanoseconds divided
    by 1000 and rounded up: it is the integer [d] with
    [1000 * (d - 1) < elapsed <= 1000 * d], and it is not negative. *)
Theorem load_time_rounds_up :
  forall (rt : runtime) (apiKey projectId : jsval) (rqd : requestData)
         (rsd : responseData) (start : Z * Z) (error mask : jsval) (w : world),
    within_double_precision rt start ->
    let elapsed := nanoseconds (hrtime_clock rt) - nanoseconds start in
    let d := getRequestDuration rt start in
    1000 * (d - 1) < elapsed <= 1000 * d
    /\ 0 <= d
    /\ (measurable (rq_body rqd) = true ->
        measurable (rs_body rsd) = true ->
        exists c rec,
          transmits
            (sendPayloadToApiHat rt apiKey projectId rqd rsd start error mask) w c
          /\ carries rt c rec
          /\ response_load_time rec = JNum (inject_Z d)).
Proof.
  intros rt apiKey projectId rqd rsd start error mask w W elapsed d.
  pose proof (getRequestDuration_bounds rt start W) as B. cbv zeta in B.
  fold elapsed d in B.
  assert (E : 0 <= elapsed) by (destruct W as (_ & _ & E); exact (proj1 E)).
  split; [exact B|]. split; [lia|].
  intros M1 M2.
  destruct (bodyString_measurable rt _ M1) as [s1 H1].
  destruct (bodyString_measurable rt _ M2) as [s2 H2].
  destruct (sendPayloadToApiHat_run rt apiKey projectId rqd rsd start
              error mask w s1 s2 H1 H2) as (c & rec & T & C & F).
  exists c, rec. intuition.
Qed.

Lemma load_time_rounds_up_witness :
  (within_double_precision Sample.rt (11, 999998600)
   /\ measurable (rq_body Sample.rqd) = true
   /\ measurable (rs_body Sample.rsd) = true)
  /\ (1000 * (2 - 1) < 1500 <= 1000 * 2
      /\ 0 <= getRequestDuration Sample.rt (11, 999998600)
      /\ exists c rec,
           transmits
             (sendPayloadToApiHat Sample.rt Sample.apiKey Sample.projectId
                Sample.rqd Sample.rsd (11, 999998600) JNull (JObj []))
             (Sample.world_of Sample.res0) c
           /\ carries Sample.rt c rec
           /\ response_load_time rec = JNum (inject_Z 2)).
Proof.
  assert (W : within_double_precision Sample.rt (11, 999998600)).
  { unfold within_double_precision, hrtime_reading. vm_compute.
    repeat split; congruence. }
  split; [split; [exact W | split; reflexivity]|].
  destruct (load_time_rounds_up Sample.rt Sample.apiKey Sample.projectId
              Sample.rqd Sample.rsd (11, 999998600) JNull (JObj [])
              (Sample.world_of Sample.res0) W) as (B & N & R).
  split; [exact B|].
  split; [exact N|].
  apply R; reflexivity.
Defined.

(** C7 as stated fails: 9007200 seconds and one nanosecond after the start,
    the sum of nanoseconds is no double any more; it is rounded down by one,
    and the duration returned is 9007200000000 microseconds where the
    elapsed time divided by 1000 and rounded up is 9007200000001. *)
Lemma duration_beyond_double_precision : ~ rounds_up Hosts.far (0, 0).
Proof.
  intros H. unfold rounds_up in H. cbv zeta in H.
  replace (getRequestDuration Hosts.far (0, 0)) with 9007200000000 in H
    by (vm_compute; reflexivity).
  unfold nanoseconds in H. cbn [fst snd hrtime_clock Hosts.far] in H. lia.
Qed.

(** ** The outcome of the transmission *)

Lemma fetch_settles_cases (outcome : settled fetch_response) (w : world) :
  fetch_settles outcome w
  = (Fulfilled JUndefined,
     match outcome with
     | Fulfilled response =>
         if ok response then w
         else {| w_res := w_res w;
                 w_fetch := w_fetch w;
                 w_stdout :=
                   w_stdout w
                   ++ [lit "[error] Sending data to API Hat failed: "
                       ++ statusText response];
                 w_stderr := w_stderr w |}
     | Rejected r =>
         {| w_res := w_res w;
            w_fetch := w_fetch w;
            w_stdout := w_stdout w;
            w_stderr :=
              w_stderr w
              ++ [(lit "[error] Sending data to API Hat failed", reason_value r)] |}
     end).
Proof.
  unfold fetch_settles, then_, catch_, on_response, on_failure.
  destruct outcome as [response | r].
  - destruct (ok response); reflexivity.
  - reflexivity.
Qed.

(** C2, where the code departs from it: when the request body is a number
    other than zero, the reporter throws ERR_INVALID_ARG_TYPE from
    [Buffer.byteLength] before it calls [fetch]: the error leaves the
    listener, nothing is logged and no transmission is attempted. *)
Theorem reporter_error_escapes :
  forall (rt : runtime) (apiKey projectId : jsval) (req : request)
         (start : Z * Z) (requestSize : Z) (w : world) (q : Q),
    req_body req = JNum q ->
    ~ (q == 0)%Q ->
    on_finish rt apiKey projectId req start requestSize w
    = (Throw (TypeError "ERR_INVALID_ARG_TYPE"), w).
Proof.
  intros rt apiKey projectId req start requestSize w q Hb Hq.
  apply on_finish_throws. unfold listener_ready. rewrite Hb.
  assert (E : Qeq_bool q 0 = false).
  { destruct (Qeq_bool q 0) eqn:E; [|reflexivity].
    apply Qeq_bool_iff in E. contradiction. }
  unfold measurable at 1, stringish. cbn. rewrite E.
  rewrite andb_false_r. reflexivity.
Qed.

Lemma reporter_error_escapes_witness :
  (req_body Hosts.numeric_request = JNum 5 /\ ~ (5 == 0)%Q)
  /\ exists inst,
       useApiHat Sample.apiKey Sample.projectId Sample.rt
         Hosts.numeric_request Sample.host Sample.res0
         (fun m => run_handler m [CallSend (JStr (lit "hello world"))])
       = Normal inst
       /\ i_finish inst Sample.rt (Sample.world_of (i_res inst))
          = (Throw (TypeError "ERR_INVALID_ARG_TYPE"),
             Sample.world_of (i_res inst))
       /\ w_fetch (Sample.world_of (i_res inst)) = [].
Proof.
  assert (N : ~ (5 == 0)%Q) by discriminate.
  split; [split; [reflexivity | exact N]|].
  eexists. split; [reflexivity|]. split; [|reflexivity].
  apply (reporter_error_escapes Sample.rt Sample.apiKey Sample.projectId
           Hosts.numeric_request (12, 100) _ _ 5 eq_refl N).
Defined.

Lemma send_wrapper_unfold (original : methods) (body : jsval) (res : response) :
  send_wrapper (send original) body res
  = (JUndefined, snd (send original body (set_body_response body res))).
Proof.
  unfold send_wrapper.
  destruct (send original body (set_body_response body res)); reflexivity.
Qed.

Lemma render_wrapper_unfold (original : methods)
  (view options callback : jsval) (res : response) :
  render_wrapper (render original) view options callback res
  = (JUndefined,
     snd (if jstype_eqb (typeof options) TFunction
          then render original view (JObj []) options
                 (set_body_response view res)
          else render original view options callback
                 (set_body_response view res))).
Proof.
  unfold render_wrapper.
  destruct (jstype_eqb (typeof options) TFunction);
    match goal with |- context [let (_, _) := ?x in _] => destruct x end;
    reflexivity.
Qed.

(** ** The listener as a whole *)

Lemma on_finish_record (rt : runtime) (apiKey projectId : jsval) (req : request)
  (start : Z * Z) (requestSize : Z) (w : world) :
  finish_ready req (w_res w) = true ->
  exists c rec s,
    transmits (on_finish rt apiKey projectId req start requestSize) w c
    /\ carries rt c rec
    /\ bodyString rt (__apiHat_body_response (w_res w)) = JStr s
    /\ request_body rec
       = (if not_undefined (req_body req) then req_body req else JNull)
    /\ response_body rec
       = (if not_undefined (__apiHat_body_response (w_res w))
          then __apiHat_body_response (w_res w) else JNull)
    /\ response_code rec = statusCode (w_res w)
    /\ response_size rec = JNum (inject_Z (utf8_length s) / inject_Z 1024).
Proof.
  intros R.
  destruct (on_finish_run rt apiKey projectId req start requestSize w R)
    as (rsd & B & S & M1 & M2 & E).
  destruct (bodyString_measurable rt _ M1) as [s1 H1].
  destruct (bodyString_measurable rt _ M2) as [s2 H2].
  destruct (sendPayloadToApiHat_run rt apiKey projectId _ rsd start
              (or_else (locals_error (w_res w)) JNull) (JObj []) w s1 s2 H1 H2)
    as (c & rec & T & C & F).
  exists c, rec, s2. unfold transmits in *. rewrite E.
  rewrite B, S in *. cbn [rq_body requestData_of] in F.
  intuition.
Qed.

(** C3, as the code has it: the size the listener hands to the reporter is
    the Content-Length header when that header is present and truthy, and
    otherwise the UTF-8 byte length of the captured body (nothing captured
    counts as the empty string); the record does not report it: its
    [response.size] is the byte length of the serialized captured body
    divided by 1024, whatever the header says. *)
Theorem response_length_prefers_header :
  forall (rt : runtime) (apiKey projectId : jsval) (req : request)
         (start : Z * Z) (requestSize : Z) (w : world) (s : jsstring),
    let res := w_res w in
    let contentLength := res_get (lit "Content-Length") res in
    (truthy contentLength = true ->
     exists rsd,
       responseData_of res = Normal rsd /\ rs_length rsd = contentLength)
    /\ (truthy contentLength = false ->
        stringish (__apiHat_body_response res) = true ->
        exists rsd,
          responseData_of res = Normal rsd
          /\ rs_length rsd
             = JNum (inject_Z (utf8_length (text_of (__apiHat_body_response res)))))
    /\ (finish_ready req res = true ->
        serialized_body rt (__apiHat_body_response res) = Some s ->
        exists c rec,
          transmits (on_finish rt apiKey projectId req start requestSize) w c
          /\ carries rt c rec
          /\ response_size rec = JNum (inject_Z (utf8_length s) / inject_Z 1024)).
Proof.
  intros rt apiKey projectId req start requestSize w s res contentLength.
  split; [|split].
  - intros T. unfold responseData_of. fold res contentLength. rewrite T.
    eexists. split; reflexivity.
  - intros T S. unfold responseData_of. fold res contentLength. rewrite T.
    unfold stringish, or_else in *.
    destruct (__apiHat_body_response res) as [| |b|q|t|items|props|f|data];
      cbn in *; try discriminate; try (eexists; split; reflexivity).
    + destruct b; [discriminate | eexists; split; reflexivity].
    + destruct (Qeq_bool q 0); [eexists; split; reflexivity | discriminate].
    + destruct t; eexists; split; reflexivity.
  - intros R Hs.
    destruct (on_finish_record rt apiKey projectId req start requestSize w R)
      as (c & rec & s' & T & C & Bs & _ & _ & _ & Sz).
    apply bodyString_of_serialized in Hs. fold res in Bs.
    rewrite Hs in Bs. injection Bs as <-.
    exists c, rec. auto.
Qed.

Lemma response_length_prefers_header_witness :
  (truthy (res_get (lit "Content-Length") Sample.res_hello) = true
   /\ truthy (res_get (lit "Content-Length") Sample.res_plain) = false
   /\ stringish (__apiHat_body_response Sample.res_plain) = true
   /\ finish_ready Sample.get_request Sample.res_hello = true
   /\ serialized_body Sample.rt (__apiHat_body_response Sample.res_hello)
      = Some (lit "hello world"))
  /\ (exists rsd,
         responseData_of Sample.res_hello = Normal rsd
         /\ rs_length rsd = JStr (lit "5"))
  /\ (exists rsd,
         responseData_of Sample.res_plain = Normal rsd
         /\ rs_length rsd = JNum (inject_Z 11))
  /\ exists c rec,
       transmits (on_finish Sample.rt Sample.apiKey Sample.projectId
                    Sample.get_request (12, 0) 2)
                 (Sample.world_of Sample.res_hello) c
       /\ carries Sample.rt c rec
       /\ response_size rec = JNum (inject_Z 11 / inject_Z 1024).
Proof.
  split; [repeat split|].
  destruct (response_length_prefers_header Sample.rt Sample.apiKey
              Sample.projectId Sample.get_request (12, 0) 2
              (Sample.world_of Sample.res_hello) (lit "hello world"))
    as (A & _ & C).
  destruct (response_length_prefers_header Sample.rt Sample.apiKey
              Sample.projectId Sample.get_request (12, 0) 2
              (Sample.world_of Sample.res_plain) (lit "hello world"))
    as (_ & B & _).
  split; [apply A; reflexivity|].
  split; [apply B; reflexivity|].
  apply C; reflexivity.
Defined.

(** C3 as stated fails: two responses that both announce a Content-Length of
    5 are reported with different sizes, those of their captured bodies
    (11 and 2 bytes). *)
Lemma size_not_taken_from_header :
  ~ size_taken_from_header Sample.rt Sample.apiKey Sample.projectId
      Sample.get_request (12, 0) 2
      (Sample.world_of Sample.res_hello) (Sample.world_of Sample.res_hi).
Proof.
  intros H.
  destruct (on_finish_record Sample.rt Sample.apiKey Sample.projectId
              Sample.get_request (12, 0) 2 (Sample.world_of Sample.res_hello)
              eq_refl)
    as (c1 & rec1 & s1 & T1 & C1 & B1 & _ & _ & _ & S1).
  destruct (on_finish_record Sample.rt Sample.apiKey Sample.projectId
              Sample.get_request (12, 0) 2 (Sample.world_of Sample.res_hi)
              eq_refl)
    as (c2 & rec2 & s2 & T2 & C2 & B2 & _ & _ & _ & S2).
  specialize (H eq_refl eq_refl c1 c2 rec1 rec2 T1 T2 C1 C2).
  rewrite S1, S2 in H.
  injection B1 as <-. injection B2 as <-.
  vm_compute in H. discriminate H.
Qed.

(** C9, as the code has it: a request without a body whose handler sets
    status 200 and sends the object [{ok: true}], over a framework whose
    [send] hands the JSON text of an object to the [send] found on the
    response -- the wrapper -- and, given a string, leaves the scratch field
    and the status as they are and the response with a Content-Length
    header, is reported with [request.body = null], [response.code = 200],
    [response.size = 11/1024 > 0] and, as [response.body], the JSON text of
    the object: a string, not the object. *)
Theorem get_ok_scenario :
  forall (rt rt' : runtime) (apiKey projectId : jsval) (req : request)
         (F : methods -> methods) (original : methods) (res : response),
    let body := JObj [(lit "ok", JBool true)] in
    let text := JSON_stringify (Number_toString rt') body in
    req_body req = JUndefined ->
    bound_under_wrappers F original ->
    (forall slots r,
        exists r',
          send (F slots) body r = send slots text r'
          /\ statusCode r' = statusCode r) ->
    (forall slots r,
        __apiHat_body_response (snd (send (F slots) text r))
        = __apiHat_body_response r
        /\ statusCode (snd (send (F slots) text r)) = statusCode r
        /\ truthy (res_get (lit "Content-Length")
                     (snd (send (F slots) text r))) = true) ->
    exists inst,
      useApiHat apiKey projectId rt req original res
        (fun m => run_handler m [CallStatus (JNum 200); CallSend body])
      = Normal inst
      /\ forall w, w_res w = i_res inst ->
         exists c rec,
           transmits (i_finish inst rt') w c
           /\ carries rt' c rec
           /\ request_body rec = JNull
           /\ response_body rec = text
           /\ typeof (response_body rec) = TString
           /\ response_code rec = JNum 200
           /\ response_size rec = JNum (inject_Z 11 / inject_Z 1024)
           /\ (0 < inject_Z 11 / inject_Z 1024)%Q.
Proof.
  intros rt rt' apiKey projectId req F original res body text
         Hb [Ks _] Ho Hs.
  unfold useApiHat. rewrite Hb. cbn [or_else truthy JSON_stringify stringify
                                      Buffer_byteLength].
  eexists. split; [reflexivity|].
  cbn [i_res i_finish run_handler run_call send].
  set (r0 := set_statusCode (JNum 200) res).
  assert (E : exists sent,
             snd (send_wrapper (send original) body r0) = sent
             /\ __apiHat_body_response sent = text
             /\ statusCode sent = JNum 200
             /\ truthy (res_get (lit "Content-Length") sent) = true).
  { rewrite send_wrapper_unfold. cbn [snd]. rewrite Ks.
    destruct (Ho (wrapped original) (set_body_response body r0))
      as (r' & -> & St).
    cbn [wrapped send]. rewrite send_wrapper_unfold. cbn [snd]. rewrite Ks.
    destruct (Hs (wrapped original) (set_body_response text r'))
      as (A & B & C).
    eexists. split; [reflexivity|]. rewrite A, B, C.
    repeat split. exact St. }
  destruct E as (sent & -> & Sb & Sc & Sl).
  intros w Hw.
  assert (R : finish_ready req (w_res w) = true).
  { unfold finish_ready. rewrite Hw, Sl, Hb, Sb. reflexivity. }
  destruct (on_finish_record rt' apiKey projectId req
              (process_hrtime rt None) (utf8_length (quote [])) w R)
    as (c & rec & s & T & C & Bs & Rb & B & Cd & Sz).
  rewrite Hw, Sb in *. rewrite Hb in Rb. rewrite Sc in Cd.
  cbn in Bs. injection Bs as <-.
  exists c, rec. rewrite B. repeat split; assumption.
Qed.

Lemma express_like_bound :
  bound_under_wrappers Hosts.serialising Hosts.express_like.
Proof.
  split.
  - intros body r.
    destruct body as [| |b|q|t|items|props|f|data]; try reflexivity;
      try (destruct b; reflexivity); destruct data; reflexivity.
  - intros view options callback r. unfold Hosts.express_like.
    cbn [under_wrappers Hosts.serialising render].
    destruct (jstype_eqb
                (typeof (if jstype_eqb (typeof options) TFunction
                         then options else callback)) TFunction);
      reflexivity.
Qed.

Lemma get_ok_scenario_witness :
  (req_body Sample.get_request = JUndefined
   /\ bound_under_wrappers Hosts.serialising Hosts.express_like)
  /\ exists inst,
       useApiHat Sample.apiKey Sample.projectId Sample.rt Sample.get_request
         Hosts.express_like Sample.res0
         (fun m => run_handler m [CallStatus (JNum 200); CallSend Sample.ok_body])
       = Normal inst
       /\ forall w, w_res w = i_res inst ->
          exists c rec,
            transmits (i_finish inst Sample.rt) w c
            /\ carries Sample.rt c rec
            /\ request_body rec = JNull
            /\ response_body rec = JStr Sample.ok_text
            /\ typeof (response_body rec) = TString
            /\ response_code rec = JNum 200
            /\ response_size rec = JNum (inject_Z 11 / inject_Z 1024)
            /\ (0 < inject_Z 11 / inject_Z 1024)%Q.
Proof.
  split; [split; [reflexivity | exact express_like_bound]|].
  apply (get_ok_scenario Sample.rt Sample.rt Sample.apiKey Sample.projectId
           Sample.get_request Hosts.serialising Hosts.express_like Sample.res0
           eq_refl express_like_bound).
  - intros slots r. eexists. split; reflexivity.
  - intros slots r. repeat split.
Defined.

(** C9 as stated fails over such a framework: the record's [response.body]
    is the string the wrapper received last, not the object. *)
Lemma ok_body_reported_as_text :
  ~ ok_scenario Sample.rt Sample.rt Sample.apiKey Sample.projectId
      Sample.get_request Hosts.express_like Sample.res0.
Proof.
  intros H. unfold ok_scenario in H.
  assert (U : exists inst,
             useApiHat Sample.apiKey Sample.projectId Sample.rt
               Sample.get_request Hosts.express_like Sample.res0
               (fun m =>
                  run_handler m
                    [CallStatus (JNum 200);
                     CallSend (JObj [(lit "ok", JBool true)])])
             = Normal inst
             /\ __apiHat_body_response (i_res inst) = JStr Sample.ok_text
             /\ finish_ready Sample.get_request (i_res inst) = true).
  { eexists. split; [reflexivity|]. split; reflexivity. }
  destruct U as (inst & U & Sb & R).
  destruct (on_finish_record Sample.rt Sample.apiKey Sample.projectId
              Sample.get_request (process_hrtime Sample.rt None)
              (utf8_length (quote [])) (Sample.world_of (i_res inst)) R)
    as (c & rec & s & T & C & _ & _ & B & _).
  assert (Fi : i_finish inst Sample.rt
               = on_finish Sample.rt Sample.apiKey Sample.projectId
                   Sample.get_request (process_hrtime Sample.rt None)
                   (utf8_length (quote []))).
  { injection U as <-. reflexivity. }
  rewrite <- Fi in T.
  destruct (H inst (Sample.world_of (i_res inst)) c rec U eq_refl T C)
    as (_ & Rb & _).
  cbn [w_res Sample.world_of] in B. rewrite Sb in B.
  cbn [not_undefined] in B.
  rewrite B in Rb. discriminate Rb.
Qed.

(** ** Non-interference of the wrappers *)

Lemma same_delivery_refl (r : response) : same_delivery r r.
Proof. repeat split. Qed.

Lemma same_delivery_sym (r r' : response) :
  same_delivery r r' -> same_delivery r' r.
Proof. unfold same_delivery. intuition. Qed.

Lemma same_delivery_trans (r1 r2 r3 : response) :
  same_delivery r1 r2 -> same_delivery r2 r3 -> same_delivery r1 r3.
Proof. unfold same_delivery. intuition congruence. Qed.

Lemma set_body_response_same (v : jsval) (r : response) :
  same_delivery (set_body_response v r) r.
Proof. repeat split. Qed.

Section NonInterference.

Variable original : methods.
Hypothesis blind : scratch_blind original.

Lemma run_call_same (c : call) (r r' : response) :
  same_delivery r r' ->
  same_delivery (run_call (wrapped original) c r) (run_call original c r').
Proof.
  intros H. destruct c as [body | view options callback | code];
    cbn [run_call wrapped send render].
  - rewrite send_wrapper_unfold. cbn [snd].
    apply (send_blind _ blind).
    eapply same_delivery_trans; [apply set_body_response_same | exact H].
  - rewrite render_wrapper_unfold. cbn [snd].
    assert (H' : same_delivery (set_body_response view r) r')
      by (eapply same_delivery_trans; [apply set_body_response_same | exact H]).
    destruct options as [| |b|q|t|items|props|f|data]; cbn [typeof jstype_eqb];
      try (apply (render_blind _ blind); exact H').
    eapply same_delivery_trans.
    + apply (render_blind _ blind). exact H'.
    + apply same_delivery_sym. apply (render_normalises _ blind).
  - unfold same_delivery in *. cbn. intuition.
Qed.

Lemma run_handler_same (h : list call) :
  forall r r' : response,
    same_delivery r r' ->
    same_delivery (run_handler (wrapped original) h r) (run_handler original h r').
Proof.
  induction h as [| c h IH]; intros r r' H; cbn [run_handler].
  - exact H.
  - apply IH. apply run_call_same. exact H.
Qed.

Lemma run_pipeline_same (p : pipeline) :
  result_blind p ->
  forall r r' : response,
    same_delivery r r' ->
    same_delivery (run_pipeline (wrapped original) p r)
                  (run_pipeline original p r').
Proof.
  induction p as [| body k IH | view options callback k IH | code k IH];
    intros Hb r r' H; cbn [run_pipeline].
  - exact H.
  - destruct Hb as [Hk Hb].
    pose proof (run_call_same (CallSend body) r r' H) as S.
    cbn [run_call] in S.
    destruct (send (wrapped original) body r) as [v1 r1] eqn:E1.
    destruct (send original body r') as [v2 r2] eqn:E2.
    cbn [snd] in S.
    assert (V : v1 = JUndefined).
    { cbn [wrapped send] in E1. rewrite send_wrapper_unfold in E1.
      injection E1 as <- _. reflexivity. }
    rewrite V, (Hk v2). apply IH; assumption.
  - destruct Hb as [Hk Hb].
    pose proof (run_call_same (CallRender view options callback) r r' H) as S.
    cbn [run_call] in S.
    destruct (render (wrapped original) view options callback r)
      as [v1 r1] eqn:E1.
    destruct (render original view options callback r') as [v2 r2] eqn:E2.
    cbn [snd] in S.
    assert (V : v1 = JUndefined).
    { cbn [wrapped render] in E1. rewrite render_wrapper_unfold in E1.
      injection E1 as <- _. reflexivity. }
    rewrite V, (Hk v2). apply IH; assumption.
  - apply IH; [exact Hb|].
    unfold same_delivery in *. cbn. intuition.
Qed.

End NonInterference.

Lemma of_calls_blind (h : list call) : result_blind (of_calls h).
Proof.
  induction h as [| c h IH]; [exact I|].
  destruct c; cbn; auto.
Qed.

Lemma of_calls_run (m : methods) (h : list call) :
  forall res, run_pipeline m (of_calls h) res = run_handler m h res.
Proof.
  induction h as [| c h IH]; intros res; [reflexivity|].
  destruct c as [body | view options callback | code];
    cbn [of_calls run_pipeline run_handler run_call].
  - destruct (send m body res) as [v r]. apply IH.
  - destruct (render m view options callback res) as [v r]. apply IH.
  - apply IH.
Qed.


Lemma sample_host_blind : scratch_blind Sample.host.
Proof.
  split.
  - intros body r r' (S & H & L & W). repeat split; cbn; congruence.
  - intros view options callback r r' (S & H & L & W).
    repeat split; cbn; congruence.
  - intros view f callback r. repeat split.
Qed.

Lemma plain_blind : result_blind Hosts.plain.
Proof. cbn. repeat split. Qed.



(** ** Further properties of the reporter *)

(** The call of [fetch], written out. *)
Lemma sendPayloadToApiHat_eval (rt : runtime) (apiKey projectId : jsval)
  (rqd : requestData) (rsd : responseData) (start : Z * Z)
  (error mask : jsval) (w : world) (s1 s2 : jsstring) :
  bodyString rt (rq_body rqd) = JStr s1 ->
  bodyString rt (rs_body rsd) = JStr s2 ->
  sendPayloadToApiHat rt apiKey projectId rqd rsd start error mask w
  = (Normal tt,
     add_fetch w
       {| fetch_url := lit "https://api.apihat.com/api/requests";
          fetch_method := lit "POST";
          fetch_headers :=
            [(lit "Content-Type", JStr (lit "application/json"));
             (lit "x-api-key", apiKey)];
          fetch_body :=
            JSON_stringify (Number_toString rt)
              (dataToSend rt apiKey projectId rqd rsd start (errors_of error)
                 mask (rq_body rqd) (rs_body rsd)
                 (String_toUpperCase rt (rq_protocol rqd)
                    ++ lit "/" ++ rq_httpVersion rqd)
                 (inject_Z (utf8_length s1) / inject_Z 1024)
                 (inject_Z (utf8_length s2) / inject_Z 1024)) |}).
Proof.
  intros H1 H2. unfold sendPayloadToApiHat, bind, lift.
  rewrite H1, H2. reflexivity.
Qed.

(** X1: the reporter either issues exactly one call, leaving the response
    and the console as they are, or throws ERR_INVALID_ARG_TYPE without
    having done anything; it throws exactly when one of the two bodies is
    neither an object, nor a string, nor falsy (a non-zero number, [true], a
    function). *)
Theorem reporter_outcome :
  forall (rt : runtime) (apiKey projectId : jsval) (rqd : requestData)
         (rsd : responseData) (start : Z * Z) (error mask : jsval) (w : world),
    (measurable (rq_body rqd) && measurable (rs_body rsd) = true ->
     exists c,
       sendPayloadToApiHat rt apiKey projectId rqd rsd start error mask w
       = (Normal tt, add_fetch w c))
    /\ (measurable (rq_body rqd) && measurable (rs_body rsd) = false ->
        sendPayloadToApiHat rt apiKey projectId rqd rsd start error mask w
        = (Throw (TypeError "ERR_INVALID_ARG_TYPE"), w)).
Proof.
  intros rt apiKey projectId rqd rsd start error mask w. split.
  - intros H. apply andb_true_iff in H as [M1 M2].
    destruct (bodyString_measurable rt _ M1) as [s1 H1].
    destruct (bodyString_measurable rt _ M2) as [s2 H2].
    eexists. apply (sendPayloadToApiHat_eval _ _ _ _ _ _ _ _ _ s1 s2 H1 H2).
  - apply sendPayloadToApiHat_throws.
Qed.

Lemma reporter_outcome_witness :
  (measurable (rq_body Sample.rqd) && measurable (rs_body Sample.rsd) = true
   /\ measurable (rq_body Sample.rqd) && measurable (rs_body Cases.rsd_number)
      = false)
  /\ (exists c,
         sendPayloadToApiHat Sample.rt Sample.apiKey Sample.projectId
           Sample.rqd Sample.rsd (12, 0) JNull (JObj [])
           (Sample.world_of Sample.res0)
         = (Normal tt, add_fetch (Sample.world_of Sample.res0) c))
  /\ sendPayloadToApiHat Sample.rt Sample.apiKey Sample.projectId
       Sample.rqd Cases.rsd_number (12, 0) JNull (JObj [])
       (Sample.world_of Sample.res0)
     = (Throw (TypeError "ERR_INVALID_ARG_TYPE"), Sample.world_of Sample.res0).
Proof.
  split; [split; reflexivity|].
  split.
  - apply (reporter_outcome Sample.rt Sample.apiKey Sample.projectId
             Sample.rqd Sample.rsd (12, 0) JNull (JObj [])
             (Sample.world_of Sample.res0)).
    reflexivity.
  - apply (reporter_outcome Sample.rt Sample.apiKey Sample.projectId
             Sample.rqd Cases.rsd_number (12, 0) JNull (JObj [])
             (Sample.world_of Sample.res0)).
    reflexivity.
Defined.

Lemma on_finish_transmits (rt : runtime) (apiKey projectId : jsval)
  (req : request) (start : Z * Z) (requestSize : Z) (w : world) :
  listener_ready req (w_res w) = true ->
  exists c,
    on_finish rt apiKey projectId req start requestSize w
    = (Normal tt, add_fetch w c).
Proof.
  unfold listener_ready. intros H.
  apply andb_true_iff in H as [H M2].
  apply andb_true_iff in H as [H1 M1].
  destruct (responseData_of_accepts _ H1) as [len E].
  destruct (bodyString_measurable rt _ M1) as [s1 B1].
  destruct (bodyString_measurable rt _ M2) as [s2 B2].
  eexists. unfold on_finish, bind, the_response, lift. rewrite E.
  apply (sendPayloadToApiHat_eval rt apiKey projectId
           (requestData_of req requestSize)
           {| rs_body := __apiHat_body_response (w_res w);
              rs_headers := res_getHeaders (w_res w);
              rs_statusCode := statusCode (w_res w);
              rs_length := len |}
           start (or_else (locals_error (w_res w)) JNull) (JObj []) w
           s1 s2 B1 B2).
Qed.

(** X2: the listener either issues exactly one call and changes nothing
    else, or throws ERR_INVALID_ARG_TYPE leaving everything as it was.  It
    throws exactly when the request body or the captured body is neither an
    object, nor a string, nor falsy, or when there is no truthy
    Content-Length header and the captured body is truthy and neither a
    string nor binary data.  So a captured plain object or array without a
    truthy Content-Length header makes it throw, while a captured Buffer
    never does. *)
Theorem listener_outcome :
  forall (rt : runtime) (apiKey projectId : jsval) (req : request)
         (start : Z * Z) (requestSize : Z) (w : world),
    (listener_ready req (w_res w) = true ->
     exists c,
       on_finish rt apiKey projectId req start requestSize w
       = (Normal tt, add_fetch w c))
    /\ (listener_ready req (w_res w) = false ->
        on_finish rt apiKey projectId req start requestSize w
        = (Throw (TypeError "ERR_INVALID_ARG_TYPE"), w))
    /\ (plain_object (__apiHat_body_response (w_res w)) = true ->
        truthy (res_get (lit "Content-Length") (w_res w)) = false ->
        listener_ready req (w_res w) = false)
    /\ (is_binary (__apiHat_body_response (w_res w)) = true ->
        measurable (req_body req) = true ->
        listener_ready req (w_res w) = true).
Proof.
  intros rt apiKey projectId req start requestSize w.
  split; [|split; [|split]].
  - apply on_finish_transmits.
  - apply on_finish_throws.
  - intros P L. unfold listener_ready. rewrite L.
    destruct (__apiHat_body_response (w_res w)); try discriminate P;
      reflexivity.
  - intros P M. unfold listener_ready. rewrite M.
    destruct (__apiHat_body_response (w_res w)); try discriminate P.
    cbn. rewrite orb_true_r. reflexivity.
Qed.

Lemma listener_outcome_witness :
  (listener_ready Sample.get_request
     (w_res (Sample.world_of Sample.res_hello)) = true
   /\ listener_ready Sample.get_request
        (w_res (Sample.world_of Cases.res_number)) = false
   /\ plain_object
        (__apiHat_body_response (w_res (Sample.world_of Cases.res_object)))
      = true
   /\ truthy (res_get (lit "Content-Length")
                (w_res (Sample.world_of Cases.res_object))) = false
   /\ is_binary
        (__apiHat_body_response (w_res (Sample.world_of Hosts.res_buffer)))
      = true
   /\ measurable (req_body Sample.get_request) = true)
  /\ (exists c,
         on_finish Sample.rt Sample.apiKey Sample.projectId Sample.get_request
           (12, 0) 2 (Sample.world_of Sample.res_hello)
         = (Normal tt, add_fetch (Sample.world_of Sample.res_hello) c))
  /\ on_finish Sample.rt Sample.apiKey Sample.projectId Sample.get_request
       (12, 0) 2 (Sample.world_of Cases.res_number)
     = (Throw (TypeError "ERR_INVALID_ARG_TYPE"),
        Sample.world_of Cases.res_number)
  /\ listener_ready Sample.get_request
       (w_res (Sample.world_of Cases.res_object)) = false
  /\ listener_ready Sample.get_request
       (w_res (Sample.world_of Hosts.res_buffer)) = true.
Proof.
  split; [repeat split|].
  split; [|split; [|split]].
  - apply (listener_outcome Sample.rt Sample.apiKey Sample.projectId
             Sample.get_request (12, 0) 2 (Sample.world_of Sample.res_hello)).
    reflexivity.
  - apply (listener_outcome Sample.rt Sample.apiKey Sample.projectId
             Sample.get_request (12, 0) 2 (Sample.world_of Cases.res_number)).
    reflexivity.
  - apply (listener_outcome Sample.rt Sample.apiKey Sample.projectId
             Sample.get_request (12, 0) 2 (Sample.world_of Cases.res_object));
      reflexivity.
  - apply (listener_outcome Sample.rt Sample.apiKey Sample.projectId
             Sample.get_request (12, 0) 2 (Sample.world_of Hosts.res_buffer));
      reflexivity.
Defined.

(** X13: from every state in which the listener does not throw it issues
    exactly one call; and however that call settles -- success, a
    non-success status, a transport failure -- the promise chain ends
    fulfilled, having written at most one line to the console: the response
    stays as it was and no further call is issued. *)
Theorem listener_reports_once :
  forall (rt : runtime) (apiKey projectId : jsval) (req : request)
         (start : Z * Z) (requestSize : Z) (w : world)
         (outcome : settled fetch_response),
    listener_ready req (w_res w) = true ->
    exists c w1,
      on_finish rt apiKey projectId req start requestSize w
      = (Normal tt, add_fetch w c)
      /\ fetch_settles outcome (add_fetch w c) = (Fulfilled JUndefined, w1)
      /\ w_res w1 = w_res w
      /\ w_fetch w1 = w_fetch w ++ [c]
      /\ w_stdout w1
         = w_stdout w
           ++ match outcome with
              | Fulfilled response =>
                  if ok response then []
                  else [lit "[error] Sending data to API Hat failed: "
                        ++ statusText response]
              | Rejected _ => []
              end
      /\ w_stderr w1
         = w_stderr w
           ++ match outcome with
              | Fulfilled _ => []
              | Rejected r =>
                  [(lit "[error] Sending data to API Hat failed",
                    reason_value r)]
              end.
Proof.
  intros rt apiKey projectId req start requestSize w outcome R.
  destruct (on_finish_transmits rt apiKey projectId req start requestSize w R)
    as [c E].
  exists c. eexists. split; [exact E|].
  split; [apply fetch_settles_cases|].
  destruct outcome as [response | r]; [destruct (ok response)|];
    cbn [w_res w_fetch w_stdout w_stderr add_fetch]; rewrite ?app_nil_r;
    repeat split.
Qed.

Lemma listener_reports_once_witness :
  listener_ready Sample.get_request
    (w_res (Sample.world_of Sample.res_hello)) = true
  /\ exists c w1,
       on_finish Sample.rt Sample.apiKey Sample.projectId Sample.get_request
         (12, 0) 2 (Sample.world_of Sample.res_hello)
       = (Normal tt, add_fetch (Sample.world_of Sample.res_hello) c)
       /\ fetch_settles (Rejected (Failure (JStr (lit "ECONNREFUSED"))))
            (add_fetch (Sample.world_of Sample.res_hello) c)
          = (Fulfilled JUndefined, w1)
       /\ w_res w1 = Sample.res_hello
       /\ w_fetch w1 = [c]
       /\ w_stdout w1 = []
       /\ w_stderr w1
          = [(lit "[error] Sending data to API Hat failed",
              JStr (lit "ECONNREFUSED"))].
Proof.
  split; [reflexivity|].
  apply (listener_reports_once Sample.rt Sample.apiKey Sample.projectId
           Sample.get_request (12, 0) 2 (Sample.world_of Sample.res_hello)
           (Rejected (Failure (JStr (lit "ECONNREFUSED")))) eq_refl).
Defined.

(** X3: the request size computed when the middleware is entered and the
    response length computed by the listener are handed to the reporter but
    never used by it: neither changes what the reporter or the listener
    does. *)
Theorem handed_sizes_unused :
  forall (rt : runtime) (apiKey projectId : jsval) (req : request)
         (rqd : requestData) (rsd : responseData) (start : Z * Z)
         (error mask : jsval) (w : world) (n n' : Z) (l : jsval),
    sendPayloadToApiHat rt apiKey projectId (with_size n rqd)
      (with_length l rsd) start error mask w
    = sendPayloadToApiHat rt apiKey projectId rqd rsd start error mask w
    /\ on_finish rt apiKey projectId req start n w
       = on_finish rt apiKey projectId req start n' w.
Proof.
  intros rt apiKey projectId req rqd rsd start error mask w n n' l. split.
  - destruct rqd, rsd. reflexivity.
  - unfold on_finish, bind, the_response, lift.
    destruct (responseData_of (w_res w)); reflexivity.
Qed.

(** X4: nothing is masked.  Whatever mapping of fields to mask is passed,
    the reporter issues the same call, and the record carries the request
    headers, the response headers and both bodies as they were given. *)
Theorem nothing_is_masked :
  forall (rt : runtime) (apiKey projectId : jsval) (rqd : requestData)
         (rsd : responseData) (start : Z * Z) (error : jsval) (w : world),
    measurable (rq_body rqd) = true ->
    measurable (rs_body rsd) = true ->
    exists c rec,
      (forall mask,
          transmits
            (sendPayloadToApiHat rt apiKey projectId rqd rsd start error mask)
            w c)
      /\ carries rt c rec
      /\ request_headers rec = JObj (rq_headers rqd)
      /\ response_headers rec = rs_headers rsd
      /\ request_body rec
         = (if not_undefined (rq_body rqd) then rq_body rqd else JNull)
      /\ response_body rec
         = (if not_undefined (rs_body rsd) then rs_body rsd else JNull).
Proof.
  intros rt apiKey projectId rqd rsd start error w M1 M2.
  destruct (bodyString_measurable rt _ M1) as [s1 H1].
  destruct (bodyString_measurable rt _ M2) as [s2 H2].
  eexists. eexists. split.
  - intros mask. unfold transmits.
    rewrite (sendPayloadToApiHat_eval rt apiKey projectId rqd rsd start
               error mask w s1 s2 H1 H2).
    unfold dataToSend, maskSensitiveValues. reflexivity.
  - repeat split.
Qed.

Lemma nothing_is_masked_witness :
  (measurable (rq_body Sample.rqd) = true
   /\ measurable (rs_body Sample.rsd) = true)
  /\ exists c rec,
       (forall mask,
           transmits
             (sendPayloadToApiHat Sample.rt Sample.apiKey Sample.projectId
                Sample.rqd Sample.rsd (12, 0) JNull mask)
             (Sample.world_of Sample.res0) c)
       /\ carries Sample.rt c rec
       /\ request_headers rec
          = JObj [(lit "user-agent", JStr (lit "curl/8.0"))]
       /\ response_headers rec
          = JObj [(lit "content-length", JStr (lit "11"))]
       /\ request_body rec = JNull
       /\ response_body rec = Sample.ok_body.
Proof.
  split; [split; reflexivity|].
  apply (nothing_is_masked Sample.rt Sample.apiKey Sample.projectId
           Sample.rqd Sample.rsd (12, 0) JNull (Sample.world_of Sample.res0));
    reflexivity.
Defined.

(** ** Further properties of the duration *)

(** X5: as long as the clock readings are well formed and less than 2^53
    nanoseconds apart, the request duration depends on them only through
    the nanoseconds elapsed between them, never decreases when the elapsed
    time grows, and is exact when the elapsed time is a whole number of
    microseconds. *)
Theorem duration_monotone :
  forall (rt rt' : runtime) (start start' : Z * Z) (k : Z),
    within_double_precision rt start ->
    within_double_precision rt' start' ->
    let elapsed := nanoseconds (hrtime_clock rt) - nanoseconds start in
    let elapsed' := nanoseconds (hrtime_clock rt') - nanoseconds start' in
    (elapsed <= elapsed' ->
     getRequestDuration rt start <= getRequestDuration rt' start')
    /\ (elapsed = elapsed' ->
        getRequestDuration rt start = getRequestDuration rt' start')
    /\ (elapsed = 1000 * k -> getRequestDuration rt start = k).
Proof.
  intros rt rt' start start' k W W' elapsed elapsed'.
  pose proof (getRequestDuration_bounds rt start W) as B.
  pose proof (getRequestDuration_bounds rt' start' W') as B'.
  cbv zeta in B, B'. fold elapsed in B. fold elapsed' in B'.
  repeat split; intros; lia.
Qed.

Lemma sample_readings (ns : Z) (start : Z * Z) :
  0 <= 100 + ns < 1000000000 ->
  0 <= snd start < 1000000000 ->
  0 <= nanoseconds (12, 100 + ns) - nanoseconds start < 2 ^ 53 ->
  within_double_precision (Cases.later ns) start.
Proof. intros A B C. repeat split; cbn [hrtime_clock Cases.later snd]; lia. Qed.

Lemma duration_monotone_witness :
  (within_double_precision (Cases.later 0) (12, 0)
   /\ within_double_precision (Cases.later 2500) (12, 0)
   /\ within_double_precision (Cases.later 900) (11, 1000)
   /\ nanoseconds (hrtime_clock (Cases.later 0)) - nanoseconds (12, 0)
      <= nanoseconds (hrtime_clock (Cases.later 2500)) - nanoseconds (12, 0)
   /\ nanoseconds (hrtime_clock (Cases.later 900)) - nanoseconds (11, 1000)
      = 1000 * 1000000)
  /\ getRequestDuration (Cases.later 0) (12, 0)
     <= getRequestDuration (Cases.later 2500) (12, 0)
  /\ getRequestDuration (Cases.later 900) (11, 1000) = 1000000.
Proof.
  assert (W0 : within_double_precision (Cases.later 0) (12, 0))
    by (apply sample_readings; vm_compute; split; congruence).
  assert (W1 : within_double_precision (Cases.later 2500) (12, 0))
    by (apply sample_readings; vm_compute; split; congruence).
  assert (W2 : within_double_precision (Cases.later 900) (11, 1000))
    by (apply sample_readings; vm_compute; split; congruence).
  split.
  - split; [exact W0|]. split; [exact W1|]. split; [exact W2|].
    split; [vm_compute; congruence | reflexivity].
  - split.
    + apply (duration_monotone (Cases.later 0) (Cases.later 2500)
               (12, 0) (12, 0) 0 W0 W1).
      vm_compute; congruence.
    + apply (duration_monotone (Cases.later 900) (Cases.later 900)
               (11, 1000) (11, 1000) 1000000 W2 W2).
      reflexivity.
Defined.

(** ** Further properties of the middleware and its listener *)

(** The listener is one call of the reporter, written out. *)
Lemma on_finish_eval (rt : runtime) (apiKey projectId : jsval) (req : request)
  (start : Z * Z) (requestSize : Z) (w : world) :
  finish_ready req (w_res w) = true ->
  exists rsd s1 s2,
    on_finish rt apiKey projectId req start requestSize w
    = (Normal tt,
       add_fetch w
         {| fetch_url := lit "https://api.apihat.com/api/requests";
            fetch_method := lit "POST";
            fetch_headers :=
              [(lit "Content-Type", JStr (lit "application/json"));
               (lit "x-api-key", apiKey)];
            fetch_body :=
              JSON_stringify (Number_toString rt)
                (dataToSend rt apiKey projectId
                   (requestData_of req requestSize) rsd start
                   (errors_of (or_else (locals_error (w_res w)) JNull))
                   (JObj []) (req_body req)
                   (__apiHat_body_response (w_res w))
                   (String_toUpperCase rt (req_protocol req)
                      ++ lit "/" ++ req_httpVersion req)
                   (inject_Z (utf8_length s1) / inject_Z 1024)
                   (inject_Z (utf8_length s2) / inject_Z 1024)) |})
    /\ rs_headers rsd = res_getHeaders (w_res w)
    /\ rs_statusCode rsd = statusCode (w_res w).
Proof.
  unfold finish_ready. intros H.
  apply andb_true_iff in H as [H M2].
  apply andb_true_iff in H as [H1 M1].
  destruct (responseData_of_ready _ H1) as [len E].
  destruct (bodyString_measurable rt _ M1) as [s1 B1].
  destruct (bodyString_measurable rt _ M2) as [s2 B2].
  eexists. exists s1, s2. split; [|split].
  - unfold on_finish, bind, the_response, lift. rewrite E.
    rewrite (sendPayloadToApiHat_eval rt apiKey projectId
               (requestData_of req requestSize)
               {| rs_body := __apiHat_body_response (w_res w);
                  rs_headers := res_getHeaders (w_res w);
                  rs_statusCode := statusCode (w_res w);
                  rs_length := len |}
               start (or_else (locals_error (w_res w)) JNull) (JObj []) w
               s1 s2 B1 B2).
    reflexivity.
  - reflexivity.
  - reflexivity.
Qed.

Lemma useApiHat_runs (apiKey projectId : jsval) (rt : runtime) (req : request)
  (original : methods) (res : response)
  (next : methods -> response -> response) :
  typeof (req_body req) <> TFunction ->
  exists requestSize,
    useApiHat apiKey projectId rt req original res next
    = Normal {| i_methods := wrapped original;
                i_res := next (wrapped original) res;
                i_finish := fun rt' =>
                  on_finish rt' apiKey projectId req (hrtime_clock rt)
                    requestSize |}.
Proof.
  intros Hf. unfold useApiHat, or_else, JSON_stringify.
  destruct (req_body req) as [| |b|q|t|items|props|f|data]; cbn in *;
    try (eexists; reflexivity).
  - destruct b; eexists; reflexivity.
  - destruct (Qeq_bool q 0); eexists; reflexivity.
  - destruct t; eexists; reflexivity.
  - contradiction Hf; reflexivity.
Qed.

(** X6: for a request whose body is not a function and whose listener
    reaches the transmission, with well-formed clock readings less than
    2^53 nanoseconds apart, the reported load time runs from the reading
    taken when the middleware is entered to the one taken when the finish
    event fires: it is that difference in nanoseconds, divided by 1000 and
    rounded up, whatever the rest of the pipeline does in between. *)
Theorem load_time_spans_the_request :
  forall (rt rt' : runtime) (apiKey projectId : jsval) (req : request)
         (original : methods) (res : response)
         (next : methods -> response -> response) (w : world),
    typeof (req_body req) <> TFunction ->
    finish_ready req (w_res w) = true ->
    within_double_precision rt' (hrtime_clock rt) ->
    exists inst c rec d,
      useApiHat apiKey projectId rt req original res next = Normal inst
      /\ transmits (i_finish inst rt') w c
      /\ carries rt' c rec
      /\ response_load_time rec = JNum (inject_Z d)
      /\ 1000 * (d - 1)
         < nanoseconds (hrtime_clock rt') - nanoseconds (hrtime_clock rt)
         <= 1000 * d.
Proof.
  intros rt rt' apiKey projectId req original res next w Hf R W.
  destruct (useApiHat_runs apiKey projectId rt req original res next Hf)
    as [n ->].
  destruct (on_finish_eval rt' apiKey projectId req (hrtime_clock rt) n w R)
    as (rsd & s1 & s2 & E & _).
  eexists. eexists. eexists.
  exists (getRequestDuration rt' (hrtime_clock rt)).
  split; [reflexivity|]. cbn [i_finish]. unfold transmits, carries.
  split; [exact E|]. split; [reflexivity|]. split; [reflexivity|].
  apply getRequestDuration_bounds. exact W.
Qed.

Lemma load_time_spans_the_request_witness :
  (typeof (req_body Sample.get_request) <> TFunction
   /\ finish_ready Sample.get_request
        (w_res (Sample.world_of Sample.res_hello)) = true
   /\ within_double_precision (Cases.later 2500) (hrtime_clock Sample.rt))
  /\ exists inst c rec d,
       useApiHat Sample.apiKey Sample.projectId Sample.rt Sample.get_request
         Sample.host Sample.res0 (fun m => run_handler m Cases.calls)
       = Normal inst
       /\ transmits (i_finish inst (Cases.later 2500))
            (Sample.world_of Sample.res_hello) c
       /\ carries (Cases.later 2500) c rec
       /\ response_load_time rec = JNum (inject_Z d)
       /\ 1000 * (d - 1) < 2500 <= 1000 * d.
Proof.
  assert (Hf : typeof (req_body Sample.get_request) <> TFunction)
    by discriminate.
  assert (W : within_double_precision (Cases.later 2500)
                (hrtime_clock Sample.rt))
    by (apply sample_readings; vm_compute; split; congruence).
  split; [split; [exact Hf | split; [reflexivity | exact W]]|].
  apply (load_time_spans_the_request Sample.rt (Cases.later 2500)
           Sample.apiKey Sample.projectId Sample.get_request Sample.host
           Sample.res0 (fun m => run_handler m Cases.calls)
           (Sample.world_of Sample.res_hello) Hf eq_refl W).
Defined.

Lemma replace_first_split (pat by_ : N) (d r : jsstring) :
  ~ In pat d ->
  replace_first pat by_ (d ++ pat :: r) = d ++ by_ :: r.
Proof.
  induction d as [| u d IH]; intros H; cbn [replace_first app].
  - rewrite N.eqb_refl. reflexivity.
  - destruct (N.eqb u pat) eqn:E.
    + apply N.eqb_eq in E. exfalso. apply H. left. exact E.
    + rewrite IH; [reflexivity|]. intros I. apply H. right. exact I.
Qed.

(** X7: when the ISO text of the current date has the form
    [date T time rest], with ten units of date holding no [T] and eight of
    time, the record's request timestamp is [date], a space and [time]. *)
Theorem timestamp_format :
  forall (rt : runtime) (apiKey projectId : jsval) (rqd : requestData)
         (rsd : responseData) (start : Z * Z) (error mask : jsval) (w : world)
         (date time rest : jsstring),
    measurable (rq_body rqd) = true ->
    measurable (rs_body rsd) = true ->
    Date_toISOString rt = date ++ 84%N :: time ++ rest ->
    List.length date = 10%nat ->
    List.length time = 8%nat ->
    ~ In 84%N date ->
    exists c rec,
      transmits
        (sendPayloadToApiHat rt apiKey projectId rqd rsd start error mask) w c
      /\ carries rt c rec
      /\ request_timestamp rec = JStr (date ++ 32%N :: time).
Proof.
  intros rt apiKey projectId rqd rsd start error mask w date time rest
         M1 M2 Hd Ld Lt Hn.
  destruct (bodyString_measurable rt _ M1) as [s1 H1].
  destruct (bodyString_measurable rt _ M2) as [s2 H2].
  eexists. eexists. unfold transmits, carries.
  split; [apply (sendPayloadToApiHat_eval _ _ _ _ _ _ _ _ _ s1 s2 H1 H2)|].
  split; [reflexivity|].
  unfold request_timestamp. cbn [get_path get lookup str_eqb].
  change (JStr (substr0 19 (replace_first 84 32 (Date_toISOString rt)))
          = JStr (date ++ 32%N :: time)).
  rewrite Hd, replace_first_split by exact Hn.
  unfold substr0.
  change (date ++ 32%N :: time ++ rest)
    with (date ++ (32%N :: time) ++ rest).
  rewrite app_assoc.
  replace 19%nat with (List.length (date ++ 32%N :: time) + 0)%nat
    by (rewrite length_app; cbn [List.length]; lia).
  rewrite firstn_app_2. cbn [firstn]. rewrite app_nil_r. reflexivity.
Qed.

Lemma timestamp_format_witness :
  (measurable (rq_body Sample.rqd) = true
   /\ measurable (rs_body Sample.rsd) = true
   /\ Date_toISOString Sample.rt
      = lit "2024-05-06" ++ 84%N :: lit "07:08:09" ++ lit ".123Z"
   /\ List.length (lit "2024-05-06") = 10%nat
   /\ List.length (lit "07:08:09") = 8%nat
   /\ ~ In 84%N (lit "2024-05-06"))
  /\ exists c rec,
       transmits
         (sendPayloadToApiHat Sample.rt Sample.apiKey Sample.projectId
            Sample.rqd Sample.rsd (12, 0) JNull (JObj []))
         (Sample.world_of Sample.res0) c
       /\ carries Sample.rt c rec
       /\ request_timestamp rec = JStr (lit "2024-05-06 07:08:09").
Proof.
  assert (Hn : ~ In 84%N (lit "2024-05-06")).
  { cbn. intros H. repeat (destruct H as [H | H]; [discriminate H|]).
    exact H. }
  split; [repeat split; exact Hn|].
  apply (timestamp_format Sample.rt Sample.apiKey Sample.projectId
           Sample.rqd Sample.rsd (12, 0) JNull (JObj [])
           (Sample.world_of Sample.res0)
           (lit "2024-05-06") (lit "07:08:09") (lit ".123Z")
           eq_refl eq_refl eq_refl eq_refl eq_refl Hn).
Defined.

(** X8: the middleware throws, before running the rest of the pipeline,
    exactly when the request body is a function (its JSON text is
    [undefined]); in every other case it runs the rest of the pipeline once,
    on the response with the two wrappers installed, and registers a
    listener that measures from the clock reading taken on entry. *)
Theorem middleware_outcome :
  forall (apiKey projectId : jsval) (rt : runtime) (req : request)
         (original : methods) (res : response)
         (next : methods -> response -> response),
    (typeof (req_body req) = TFunction ->
     useApiHat apiKey projectId rt req original res next
     = Throw (TypeError "ERR_INVALID_ARG_TYPE"))
    /\ (typeof (req_body req) <> TFunction ->
        exists requestSize,
          useApiHat apiKey projectId rt req original res next
          = Normal {| i_methods := wrapped original;
                      i_res := next (wrapped original) res;
                      i_finish := fun rt' =>
                        on_finish rt' apiKey projectId req (hrtime_clock rt)
                          requestSize |}).
Proof.
  intros apiKey projectId rt req original res next. split.
  - intros Hf. unfold useApiHat.
    destruct (req_body req); try discriminate Hf. reflexivity.
  - apply useApiHat_runs.
Qed.

Lemma middleware_outcome_witness :
  (typeof (req_body Cases.function_request) = TFunction
   /\ typeof (req_body Sample.get_request) <> TFunction)
  /\ useApiHat Sample.apiKey Sample.projectId Sample.rt Cases.function_request
       Sample.host Sample.res0 (fun m => run_handler m Cases.calls)
     = Throw (TypeError "ERR_INVALID_ARG_TYPE")
  /\ exists requestSize,
       useApiHat Sample.apiKey Sample.projectId Sample.rt Sample.get_request
         Sample.host Sample.res0 (fun m => run_handler m Cases.calls)
       = Normal {| i_methods := wrapped Sample.host;
                   i_res := run_handler (wrapped Sample.host) Cases.calls
                              Sample.res0;
                   i_finish := fun rt' =>
                     on_finish rt' Sample.apiKey Sample.projectId
                       Sample.get_request (12, 100) requestSize |}.
Proof.
  split; [split; [reflexivity | discriminate]|].
  split.
  - apply (middleware_outcome Sample.apiKey Sample.projectId Sample.rt
             Cases.function_request Sample.host Sample.res0
             (fun m => run_handler m Cases.calls)).
    reflexivity.
  - apply (middleware_outcome Sample.apiKey Sample.projectId Sample.rt
             Sample.get_request Sample.host Sample.res0
             (fun m => run_handler m Cases.calls)).
    discriminate.
Defined.

Lemma run_call_captures (original : methods) (c : call) (res : response) :
  scratch_keeping original ->
  __apiHat_body_response (run_call (wrapped original) c res)
  = captured [c] (__apiHat_body_response res).
Proof.
  intros K. destruct c as [body | view options callback | code];
    cbn [run_call wrapped send render captured fold_left].
  - rewrite send_wrapper_unfold. cbn [snd].
    rewrite (send_keeps _ K). reflexivity.
  - rewrite render_wrapper_unfold. cbn [snd].
    destruct (jstype_eqb (typeof options) TFunction);
      rewrite (render_keeps _ K); reflexivity.
  - reflexivity.
Qed.

(** X9: over a host whose methods leave the scratch field alone, the body
    the listener finds captured after the pipeline has run is the first
    argument of the last [send] or [render] call made: the body of a [send],
    but the name of the view of a [render]; with no such call the field is
    as it was before. *)
Theorem last_call_is_captured :
  forall (original : methods) (h : list call) (res : response),
    scratch_keeping original ->
    __apiHat_body_response (run_handler (wrapped original) h res)
    = captured h (__apiHat_body_response res).
Proof.
  intros original h res K. revert res.
  induction h as [| c h IH]; intros res.
  - reflexivity.
  - cbn [run_handler]. rewrite IH.
    rewrite (run_call_captures original c res K).
    reflexivity.
Qed.

Lemma sample_host_keeping : scratch_keeping Sample.host.
Proof. split; reflexivity. Qed.

Lemma last_call_is_captured_witness :
  scratch_keeping Sample.host
  /\ __apiHat_body_response
       (run_handler (wrapped Sample.host) Cases.calls Sample.res0)
     = JStr (lit "index").
Proof.
  split; [exact sample_host_keeping|].
  apply (last_call_is_captured Sample.host Cases.calls Sample.res0
           sample_host_keeping).
Defined.

Lemma wrapped_blind (original : methods) :
  scratch_blind original -> scratch_blind (wrapped original).
Proof.
  intros B. split; cbn [wrapped send render].
  - intros body r r' H. rewrite !send_wrapper_unfold. cbn [snd].
    apply (send_blind _ B).
    eapply same_delivery_trans; [apply set_body_response_same|].
    eapply same_delivery_trans; [exact H|].
    apply same_delivery_sym, set_body_response_same.
  - intros view options callback r r' H.
    rewrite !render_wrapper_unfold. cbn [snd].
    assert (H' : same_delivery (set_body_response view r)
                   (set_body_response view r')).
    { eapply same_delivery_trans; [apply set_body_response_same|].
      eapply same_delivery_trans; [exact H|].
      apply same_delivery_sym, set_body_response_same. }
    destruct (jstype_eqb (typeof options) TFunction);
      apply (render_blind _ B); exact H'.
  - intros view f callback r. rewrite !render_wrapper_unfold.
    cbn [snd typeof jstype_eqb]. apply same_delivery_refl.
Qed.

(** X10: with the middleware installed twice, over a host whose delivery
    does not depend on the scratch field and which treats a function given
    as options as the callback, a pipeline that makes no use of what [send]
    and [render] return delivers the status, headers and bytes it delivers
    over the original methods; but each installation registers a listener
    of its own, and when the response has finished the two listeners post
    two records. *)
Theorem installed_twice :
  forall (original : methods) (p : pipeline) (res : response)
         (apiKey projectId : jsval) (rt : runtime) (req : request),
    scratch_blind original ->
    result_blind p ->
    typeof (req_body req) <> TFunction ->
    exists inner outer,
      useApiHat apiKey projectId rt req (wrapped original) res
        (fun m => run_pipeline m p) = Normal inner
      /\ useApiHat apiKey projectId rt req original res
           (fun m r =>
              match useApiHat apiKey projectId rt req m r
                      (fun m' => run_pipeline m' p) with
              | Normal second => i_res second
              | Throw _ => r
              end) = Normal outer
      /\ i_methods inner = wrapped (wrapped original)
      /\ i_res outer = i_res inner
      /\ same_delivery (i_res outer) (run_pipeline original p res)
      /\ forall rt' w,
           listener_ready req (w_res w) = true ->
           exists c1 c2,
             i_finish inner rt' w = (Normal tt, add_fetch w c1)
             /\ i_finish outer rt' (add_fetch w c1)
                = (Normal tt, add_fetch (add_fetch w c1) c2).
Proof.
  intros original p res apiKey projectId rt req B Hp Hf.
  pose proof (wrapped_blind original B) as B'.
  destruct (useApiHat_runs apiKey projectId rt req (wrapped original) res
              (fun m => run_pipeline m p) Hf) as [n E].
  destruct (useApiHat_runs apiKey projectId rt req original res
              (fun m r =>
                 match useApiHat apiKey projectId rt req m r
                         (fun m' => run_pipeline m' p) with
                 | Normal second => i_res second
                 | Throw _ => r
                 end) Hf) as [n' E'].
  eexists. eexists. split; [exact E|]. split; [exact E'|].
  cbn [i_methods i_res i_finish]. rewrite E. cbn [i_res].
  split; [reflexivity|]. split; [reflexivity|].
  split.
  - eapply same_delivery_trans.
    + apply (run_pipeline_same (wrapped original) B' p Hp res res).
      apply same_delivery_refl.
    + apply (run_pipeline_same original B p Hp res res).
      apply same_delivery_refl.
  - intros rt' w R.
    destruct (on_finish_transmits rt' apiKey projectId req (hrtime_clock rt)
                n w R) as [c1 F1].
    destruct (on_finish_transmits rt' apiKey projectId req (hrtime_clock rt)
                n' (add_fetch w c1) R) as [c2 F2].
    exists c1, c2. split; assumption.
Qed.

Lemma installed_twice_witness :
  (scratch_blind Sample.host
   /\ result_blind Hosts.plain
   /\ typeof (req_body Sample.get_request) <> TFunction
   /\ listener_ready Sample.get_request
        (w_res (Sample.world_of Sample.res_hello)) = true)
  /\ exists inner outer,
       useApiHat Sample.apiKey Sample.projectId Sample.rt Sample.get_request
         (wrapped Sample.host) Sample.res0
         (fun m => run_pipeline m Hosts.plain) = Normal inner
       /\ i_methods inner = wrapped (wrapped Sample.host)
       /\ same_delivery (i_res outer)
            (run_pipeline Sample.host Hosts.plain Sample.res0)
       /\ exists c1 c2,
            i_finish inner Sample.rt (Sample.world_of Sample.res_hello)
            = (Normal tt, add_fetch (Sample.world_of Sample.res_hello) c1)
            /\ i_finish outer Sample.rt
                 (add_fetch (Sample.world_of Sample.res_hello) c1)
               = (Normal tt,
                  add_fetch (add_fetch (Sample.world_of Sample.res_hello) c1)
                    c2).
Proof.
  assert (Hf : typeof (req_body Sample.get_request) <> TFunction)
    by discriminate.
  split.
  - split; [exact sample_host_blind|]. split; [exact plain_blind|].
    split; [exact Hf | reflexivity].
  - destruct (installed_twice Sample.host Hosts.plain Sample.res0
                Sample.apiKey Sample.projectId Sample.rt Sample.get_request
                sample_host_blind plain_blind Hf)
      as (inner & outer & E & _ & Mth & _ & S & L).
    exists inner, outer. split; [exact E|]. split; [exact Mth|].
    split; [exact S|].
    apply (L Sample.rt (Sample.world_of Sample.res_hello)). reflexivity.
Defined.

(** ** Sizes and the wire text *)

Lemma utf8_length_nonneg (s : jsstring) : 0 <= utf8_length s.
Proof.
  assert (G : forall (n : nat) (t : jsstring),
             (List.length t <= n)%nat -> 0 <= utf8_length t).
  { induction n as [| n IH]; intros t L.
    - destruct t; [cbn; lia | cbn in L; lia].
    - destruct t as [| u rest]; [cbn; lia|].
      cbn [List.length] in L.
      assert (R : 0 <= utf8_length rest) by (apply IH; lia).
      cbn [utf8_length].
      destruct (N.ltb u 128); [lia|].
      destruct (N.ltb u 2048); [lia|].
      destruct (is_high_surrogate u); [|lia].
      destruct rest as [| v rest']; [lia|].
      destruct (is_low_surrogate v); [|lia].
      cbn [List.length] in L.
      assert (R' : 0 <= utf8_length rest') by (apply IH; lia).
      lia. }
  apply (G (List.length s)). lia.
Qed.

Lemma utf8_length_ascii_head (u : N) (rest : jsstring) :
  (u < 128)%N -> 1 <= utf8_length (u :: rest).
Proof.
  intros H. cbn [utf8_length]. apply N.ltb_lt in H. rewrite H.
  pose proof (utf8_length_nonneg rest). lia.
Qed.

Lemma bodyString_object_positive (rt : runtime) (body : jsval) :
  typeof body = TObject ->
  exists s, bodyString rt body = JStr s /\ 1 <= utf8_length s.
Proof.
  intros T. unfold bodyString. rewrite T. cbn [jstype_eqb].
  destruct body as [| |b|q|t|items|props|f|data]; try discriminate T.
  - eexists. split; [reflexivity | vm_compute; congruence].
  - eexists. split; [reflexivity|].
    apply utf8_length_ascii_head. reflexivity.
  - eexists. split; [reflexivity|].
    apply utf8_length_ascii_head. reflexivity.
  - destruct data; eexists; (split; [reflexivity|]);
      apply utf8_length_ascii_head; reflexivity.
Qed.

Lemma kilobytes_sign (n : Z) :
  (0 <= n -> (0 <= inject_Z n / inject_Z 1024)%Q)
  /\ (1 <= n -> (0 < inject_Z n / inject_Z 1024)%Q).
Proof.
  unfold Qle, Qlt, Qdiv, Qmult, Qinv, inject_Z. cbn. lia.
Qed.

(** X11: the sizes a record reports are never negative; the size of a body
    that is an object -- an array and [null] included -- is strictly
    positive, that of an absent body is zero. *)
Theorem reported_sizes_sign :
  forall (rt : runtime) (apiKey projectId : jsval) (rqd : requestData)
         (rsd : responseData) (start : Z * Z) (error mask : jsval) (w : world),
    measurable (rq_body rqd) = true ->
    measurable (rs_body rsd) = true ->
    exists c rec q1 q2,
      transmits
        (sendPayloadToApiHat rt apiKey projectId rqd rsd start error mask) w c
      /\ carries rt c rec
      /\ request_size rec = JNum q1
      /\ response_size rec = JNum q2
      /\ (0 <= q1)%Q /\ (0 <= q2)%Q
      /\ (typeof (rq_body rqd) = TObject -> (0 < q1)%Q)
      /\ (typeof (rs_body rsd) = TObject -> (0 < q2)%Q)
      /\ (rq_body rqd = JUndefined -> (q1 == 0)%Q)
      /\ (rs_body rsd = JUndefined -> (q2 == 0)%Q).
Proof.
  intros rt apiKey projectId rqd rsd start error mask w M1 M2.
  destruct (bodyString_measurable rt _ M1) as [s1 H1].
  destruct (bodyString_measurable rt _ M2) as [s2 H2].
  eexists. eexists.
  exists (inject_Z (utf8_length s1) / inject_Z 1024)%Q,
         (inject_Z (utf8_length s2) / inject_Z 1024)%Q.
  unfold transmits, carries.
  split; [apply (sendPayloadToApiHat_eval _ _ _ _ _ _ _ _ _ s1 s2 H1 H2)|].
  split; [reflexivity|]. split; [reflexivity|]. split; [reflexivity|].
  split; [apply kilobytes_sign, utf8_length_nonneg|].
  split; [apply kilobytes_sign, utf8_length_nonneg|].
  split; [|split; [|split]].
  - intros T. destruct (bodyString_object_positive rt _ T) as (s & E & P).
    rewrite E in H1. injection H1 as <-. apply kilobytes_sign. exact P.
  - intros T. destruct (bodyString_object_positive rt _ T) as (s & E & P).
    rewrite E in H2. injection H2 as <-. apply kilobytes_sign. exact P.
  - intros U. rewrite U in H1. cbn in H1. injection H1 as <-. reflexivity.
  - intros U. rewrite U in H2. cbn in H2. injection H2 as <-. reflexivity.
Qed.

Lemma reported_sizes_sign_witness :
  (measurable (rq_body Sample.rqd) = true
   /\ measurable (rs_body Sample.rsd) = true
   /\ typeof (rs_body Sample.rsd) = TObject
   /\ rq_body Sample.rqd = JUndefined)
  /\ exists c rec q1 q2,
       transmits
         (sendPayloadToApiHat Sample.rt Sample.apiKey Sample.projectId
            Sample.rqd Sample.rsd (12, 0) JNull (JObj []))
         (Sample.world_of Sample.res0) c
       /\ carries Sample.rt c rec
       /\ request_size rec = JNum q1
       /\ response_size rec = JNum q2
       /\ (q1 == 0)%Q /\ (0 < q2)%Q.
Proof.
  split; [repeat split|].
  destruct (reported_sizes_sign Sample.rt Sample.apiKey Sample.projectId
              Sample.rqd Sample.rsd (12, 0) JNull (JObj [])
              (Sample.world_of Sample.res0) eq_refl eq_refl)
    as (c & rec & q1 & q2 & T & C & S1 & S2 & _ & _ & _ & P & Z1 & _).
  exists c, rec, q1, q2.
  split; [exact T|]. split; [exact C|]. split; [exact S1|].
  split; [exact S2|]. split; [apply Z1; reflexivity | apply P; reflexivity].
Defined.

(** X12: the wire text of the error list leaves out what the error does
    not have: for an error without [fileName] and [lineNumber] it is the
    text of a single descriptor with source, type and message only, and
    without an error it is the text of the empty array. *)
Theorem absent_error_fields_left_out :
  forall (Number_toString : Q -> jsstring) (error : jsval),
    (truthy error = true ->
     get (lit "fileName") error = JUndefined ->
     get (lit "lineNumber") error = JUndefined ->
     stringify Number_toString (JArr (errors_of error))
     = stringify Number_toString (JArr [short_descriptor error]))
    /\ (truthy error = false ->
        stringify Number_toString (JArr (errors_of error)) = Some (lit "[]")).
Proof.
  intros nt error. unfold errors_of, short_descriptor. split.
  - intros T F L. rewrite T, F, L. reflexivity.
  - intros T. rewrite T. reflexivity.
Qed.

Lemma absent_error_fields_left_out_witness :
  (truthy (JObj [(lit "message", JStr (lit "boom"))]) = true
   /\ get (lit "fileName") (JObj [(lit "message", JStr (lit "boom"))])
      = JUndefined
   /\ get (lit "lineNumber") (JObj [(lit "message", JStr (lit "boom"))])
      = JUndefined
   /\ truthy JNull = false)
  /\ stringify Sample.number_toString
       (JArr (errors_of (JObj [(lit "message", JStr (lit "boom"))])))
     = stringify Sample.number_toString
         (JArr [JObj [(lit "source", JStr (lit "onException"));
                      (lit "type", JStr (lit "UNHANDLED_EXCEPTION"));
                      (lit "message", JStr (lit "boom"))]])
  /\ stringify Sample.number_toString (JArr (errors_of JNull))
     = Some (lit "[]").
Proof.
  split; [repeat split|].
  split.
  - apply (absent_error_fields_left_out Sample.number_toString
             (JObj [(lit "message", JStr (lit "boom"))]));
      reflexivity.
  - apply (absent_error_fields_left_out Sample.number_toString JNull).
    reflexivity.
Defined.

(** ** Frameworks that call back into the response *)

Lemma simulates_wrapped (m m' : methods) :
  simulates m m' ->
  (forall view f callback r,
      same_delivery (snd (render m' view (JFun f) callback r))
                    (snd (render m' view (JObj []) (JFun f) r))) ->
  simulates (wrapped m) m'.
Proof.
  intros [Ss Sr] N. split; cbn [wrapped send render].
  - intros body r r' H. rewrite send_wrapper_unfold. cbn [snd].
    apply Ss.
    eapply same_delivery_trans; [apply set_body_response_same | exact H].
  - intros view options callback r r' H.
    rewrite render_wrapper_unfold. cbn [snd].
    assert (H' : same_delivery (set_body_response view r) r')
      by (eapply same_delivery_trans;
          [apply set_body_response_same | exact H]).
    destruct options as [| |b|q|t|items|props|f|data];
      cbn [typeof jstype_eqb]; try (apply Sr; exact H').
    eapply same_delivery_trans.
    + apply Sr. exact H'.
    + apply same_delivery_sym. apply N.
Qed.

Lemma simulates_no_methods : simulates no_methods no_methods.
Proof. split; intros; assumption. Qed.

Lemma on_its_own_simulates (F : methods -> methods) (depth : nat) :
  framework_blind F -> simulates (on_its_own depth F) (on_its_own depth F).
Proof.
  intros B. induction depth as [| n IH]; cbn [on_its_own].
  - apply (respects _ B). apply simulates_no_methods.
  - apply (respects _ B). exact IH.
Qed.

Lemma under_wrappers_simulates (F : methods -> methods) (depth : nat) :
  framework_blind F ->
  simulates (wrapped (under_wrappers depth F)) (on_its_own depth F).
Proof.
  intros B. induction depth as [| n IH]; cbn [under_wrappers on_its_own].
  - apply simulates_wrapped; [|apply (normalises _ B)].
    apply (respects _ B). apply simulates_no_methods.
  - apply simulates_wrapped; [|apply (normalises _ B)].
    apply (respects _ B). exact IH.
Qed.

Lemma run_pipeline_simulates (m m' : methods) (p : pipeline) :
  simulates m m' ->
  result_blind p ->
  forall r r' : response,
    same_delivery r r' ->
    same_delivery (run_pipeline m p r) (run_pipeline m' p r').
Proof.
  intros [Ss Sr].
  induction p as [| body k IH | view options callback k IH | code k IH];
    intros Hb r r' H; cbn [run_pipeline].
  - exact H.
  - destruct Hb as [Hk Hb]. pose proof (Ss body r r' H) as S.
    destruct (send m body r) as [v1 r1].
    destruct (send m' body r') as [v2 r2].
    rewrite (Hk v1), (Hk v2). apply IH; assumption.
  - destruct Hb as [Hk Hb].
    pose proof (Sr view options callback r r' H) as S.
    destruct (render m view options callback r) as [v1 r1].
    destruct (render m' view options callback r') as [v2 r2].
    rewrite (Hk v1), (Hk v2). apply IH; assumption.
  - apply IH; [exact Hb|].
    unfold same_delivery in *. cbn. intuition.
Qed.

(** X14: the wrappers do not change what the client receives either when
    the framework's own methods call back into the methods found on the
    response, as a [send] that hands the JSON text of an object to
    [this.send] does.  For a framework whose delivery depends on those
    methods only through what they deliver and whose [render] treats a
    function given as options as the callback, and a pipeline that makes no
    use of what [send] and [render] return, the status, headers and bytes
    delivered with the wrappers in the slots are those delivered by the
    framework on its own, to any depth of calling back. *)
Theorem calling_back_changes_nothing :
  forall (F : methods -> methods) (depth : nat) (p : pipeline) (res : response)
         (apiKey projectId : jsval) (rt : runtime) (req : request),
    framework_blind F ->
    result_blind p ->
    typeof (req_body req) <> TFunction ->
    exists inst,
      useApiHat apiKey projectId rt req (under_wrappers depth F) res
        (fun m => run_pipeline m p) = Normal inst
      /\ same_delivery (i_res inst)
           (run_pipeline (on_its_own depth F) p res)
      /\ wire (i_res inst) = wire (run_pipeline (on_its_own depth F) p res).
Proof.
  intros F depth p res apiKey projectId rt req B Hp Hf.
  destruct (useApiHat_runs apiKey projectId rt req (under_wrappers depth F)
              res (fun m => run_pipeline m p) Hf) as [n ->].
  eexists. split; [reflexivity|]. cbn [i_res].
  pose proof (run_pipeline_simulates _ _ p
                (under_wrappers_simulates F depth B) Hp res res
                (same_delivery_refl res)) as S.
  split; [exact S | apply S].
Qed.

Lemma serialising_blind : framework_blind Hosts.serialising.
Proof.
  assert (W : forall text r r',
             same_delivery r r' ->
             same_delivery (Hosts.write text r) (Hosts.write text r')).
  { intros text r r' (S & H & L & Wi). repeat split; cbn; congruence. }
  assert (T : forall ct r r',
             same_delivery r r' ->
             same_delivery (Hosts.typed ct r) (Hosts.typed ct r')).
  { intros ct r r' (S & H & L & Wi). repeat split; cbn; congruence. }
  split.
  - intros m m' [Ss Sr]. split.
    + intros body r r' H. cbn [Hosts.serialising send].
      destruct body as [| |b|q|t|items|props|f|data]; cbn [snd];
        try exact H; try (apply W; exact H); try (apply Ss, T; exact H).
      destruct data; cbn [snd];
        try (apply W; exact H); apply Ss, T; exact H.
    + intros view options callback r r' H. cbn [Hosts.serialising render].
      destruct (jstype_eqb
                  (typeof (if jstype_eqb (typeof options) TFunction
                           then options else callback)) TFunction);
        cbn [snd]; [exact H|].
      pose proof (Ss (JStr (lit "<h1>" ++ text_of view ++ lit "</h1>"))
                    r r' H) as S.
      destruct (send m _ r). destruct (send m' _ r'). exact S.
  - intros m view f callback r. cbn. apply same_delivery_refl.
Qed.

Lemma calling_back_changes_nothing_witness :
  (framework_blind Hosts.serialising
   /\ result_blind Hosts.plain
   /\ typeof (req_body Sample.get_request) <> TFunction)
  /\ exists inst,
       useApiHat Sample.apiKey Sample.projectId Sample.rt Sample.get_request
         (under_wrappers 2 Hosts.serialising) Sample.res0
         (fun m => run_pipeline m Hosts.plain) = Normal inst
       /\ same_delivery (i_res inst)
            (run_pipeline (on_its_own 2 Hosts.serialising) Hosts.plain
               Sample.res0)
       /\ wire (i_res inst) = lit "bye".
Proof.
  assert (Hf : typeof (req_body Sample.get_request) <> TFunction)
    by discriminate.
  split; [split; [exact serialising_blind | split; [exact plain_blind | exact Hf]]|].
  apply (calling_back_changes_nothing Hosts.serialising 2 Hosts.plain
           Sample.res0 Sample.apiKey Sample.projectId Sample.rt
           Sample.get_request serialising_blind plain_blind Hf).
Defined.
